(** * AudioScribe: a shallow embedding of the transcription pipeline

    This development models the two front ends of AudioScribe,
    [audioscribe_mac.py] and [audioscribe_windows.py]:
    - the compute-device resolvers [get_device] / [get_compute_type];
    - the timestamp renderer [format_timestamp] (macOS variant);
    - the process-wide model cache [_get_model] (Windows variant);
    - both [transcribe] functions, as programs of a small state and
      exception monad over a world holding the model cache, a trace of
      backend calls and the file system.

    The speech, alignment and diarization engines (WhisperX, pyannote)
    are external to the repository; they are modelled as a record of
    opaque functions whose results are either a value or a raised
    exception carrying its message. *)

From Stdlib Require Import ZArith QArith Qround Lqa Lia List Bool.
From Stdlib Require Import Strings.String Strings.Ascii Numbers.DecimalString.
Import ListNotations.

Open Scope string_scope.

(** ** Python string helpers *)

Module Py.

(** [str.isspace] restricted to ASCII: [\t \n \x0b \x0c \r], the
    separators [\x1c]..[\x1f] and the space. *)
Definition is_space (c : ascii) : bool :=
  let n := nat_of_ascii c in
  (((9 <=? n) && (n <=? 13)) || ((28 <=? n) && (n <=? 31)) || (n =? 32))%nat.

Fixpoint lstrip (s : string) : string :=
  match s with
  | EmptyString => EmptyString
  | String c s' => if is_space c then lstrip s' else s
  end.

Fixpoint rstrip (s : string) : string :=
  match s with
  | EmptyString => EmptyString
  | String c s' =>
      let r := rstrip s' in
      if is_space c && String.eqb r "" then "" else String c r
  end.

(** [str.strip()] *)
Definition strip (s : string) : string := rstrip (lstrip s).

(** [str.lower()] on ASCII. *)
Fixpoint lower (s : string) : string :=
  match s with
  | EmptyString => EmptyString
  | String c s' =>
      let n := nat_of_ascii c in
      let c' := if ((65 <=? n) && (n <=? 90))%nat then ascii_of_nat (n + 32)%nat else c in
      String c' (lower s')
  end.

(** [sep.join(xs)] *)
Fixpoint join (sep : string) (xs : list string) : string :=
  match xs with
  | [] => ""
  | [x] => x
  | x :: xs' => x ++ sep ++ join sep xs'
  end.

(** [needle in hay] for strings. *)
Fixpoint contains (needle hay : string) : bool :=
  String.prefix needle hay ||
  match hay with
  | EmptyString => false
  | String _ hay' => contains needle hay'
  end.

(** [c * n] for a one-character string [c]. *)
Fixpoint repeat_str (c : string) (n : nat) : string :=
  match n with
  | O => ""
  | S n' => c ++ repeat_str c n'
  end.

(** [str(n)] for a Python int. *)
Definition str_int (n : Z) : string := NilEmpty.string_of_int (Z.to_int n).

(** [f"{n:0wd}"]: the sign, then zeros up to the total width [w],
    then the decimal digits of [|n|]. *)
Definition fmt_0d (w : nat) (n : Z) : string :=
  let sign := if (n <? 0)%Z then "-" else "" in
  let digits := NilEmpty.string_of_uint (N.to_uint (Z.abs_N n)) in
  sign ++ repeat_str "0" (w - String.length sign - String.length digits)%nat ++ digits.

(** [int(q)] truncates toward zero. *)
Definition int_of (q : Q) : Z :=
  if Qle_bool 0 q then Qfloor q else (- Qfloor (- q))%Z.

(** Exact [x // y] and [x % y] for a positive divisor (floor division). *)
Definition floordiv (x y : Q) : Q := inject_Z (Qfloor (x / y)).
Definition pmod (x y : Q) : Q := x - floordiv x y * y.

Definition CR : ascii := ascii_of_nat 13.
Definition LF : ascii := ascii_of_nat 10.

(** Reading a text file ([Path.read_text()], [newline=None]): universal
    newlines, ["\r\n"] and a lone ["\r"] are both read as ["\n"]. *)
Fixpoint universal_newlines (s : string) : string :=
  match s with
  | EmptyString => EmptyString
  | String c rest =>
      if Ascii.eqb c CR then
        match rest with
        | String c2 rest2 =>
            if Ascii.eqb c2 LF then String LF (universal_newlines rest2)
            else String LF (universal_newlines rest)
        | EmptyString => String LF EmptyString
        end
      else String c (universal_newlines rest)
  end.

(** Writing a text file ([Path.write_text(s)], [newline=None]): every
    ["\n"] is written as [os.linesep]. *)
Fixpoint translate_newlines (linesep s : string) : string :=
  match s with
  | EmptyString => EmptyString
  | String c rest =>
      if Ascii.eqb c LF then linesep ++ translate_newlines linesep rest
      else String c (translate_newlines linesep rest)
  end.

(** The string holds no ["\r"]. *)
Definition no_cr (s : string) : bool :=
  forallb (fun c => negb (Ascii.eqb c CR)) (list_ascii_of_string s).

End Py.

(** ** [format_timestamp] (audioscribe_mac.py) *)

Definition format_timestamp (seconds : Q) : string :=
  let hours := Py.int_of (Py.floordiv seconds 3600) in
  let minutes := Py.int_of (Py.floordiv (Py.pmod seconds 3600) 60) in
  let secs := Py.int_of (Py.pmod seconds 60) in
  if (hours >? 0)%Z
  then Py.fmt_0d 2 hours ++ ":" ++ Py.fmt_0d 2 minutes ++ ":" ++ Py.fmt_0d 2 secs
  else Py.fmt_0d 2 minutes ++ ":" ++ Py.fmt_0d 2 secs.

(** ** Compute profile resolver *)

(** The host capabilities probed by the code: [torch.cuda.is_available()],
    [torch.backends.mps.is_available()], [shutil.which("ffmpeg")], the
    token file, the downloads directory and the two readings of the clock
    used when a transcript is saved. *)
Record datetime := mkDatetime {
  dt_year : Z; dt_month : Z; dt_day : Z;
  dt_hour : Z; dt_minute : Z; dt_second : Z }.

Record host := mkHost {
  cuda_available : bool;
  mps_available : bool;
  ffmpeg_on_path : bool;
  token_file : option string;   (** contents of [~/.audioscribe_token.txt] *)
  downloads_dir : string;       (** [Path.home() / "Downloads"] *)
  clock_file : datetime;        (** first [datetime.now()] of the save step *)
  clock_header : datetime }.    (** second [datetime.now()] (macOS header) *)

Module Mac.
Definition get_device (h : host) : string :=
  if mps_available h then "mps"
  else if cuda_available h then "cuda"
  else "cpu".

Definition get_compute_type (device : string) : string :=
  if String.eqb device "cuda" then "float16" else "float32".
End Mac.

Module Win.
Definition get_device (h : host) : string :=
  if cuda_available h then "cuda" else "cpu".

Definition get_compute_type (device : string) : string :=
  if String.eqb device "cuda" then "float16" else "int8".
End Win.

(** ** Paths, clock and strings shared by both front ends *)

Definition nl : string := String (ascii_of_nat 10) EmptyString.

Fixpoint take_while (p : ascii -> bool) (l : list ascii) : list ascii :=
  match l with
  | [] => []
  | c :: l' => if p c then c :: take_while p l' else []
  end.

(** [Path(p).name] for a normalised path (no trailing separator);
    [is_sep] tells the separators of the platform's [pathlib]. *)
Definition path_name (is_sep : ascii -> bool) (p : string) : string :=
  string_of_list_ascii
    (rev (take_while (fun c => negb (is_sep c)) (rev (list_ascii_of_string p)))).

Definition posix_sep (c : ascii) : bool := Ascii.eqb c "/"%char.
Definition windows_sep (c : ascii) : bool :=
  Ascii.eqb c "/"%char || Nat.eqb (nat_of_ascii c) 92.

(** Index of the last ['.'] ([str.rfind]), if any. *)
Fixpoint rfind_dot_from (i : nat) (l : list ascii) (acc : option nat) : option nat :=
  match l with
  | [] => acc
  | c :: l' =>
      rfind_dot_from (S i) l' (if Ascii.eqb c "."%char then Some i else acc)
  end.

(** [PurePath.suffix] and [PurePath.stem]: the last dot counts only when
    [0 < i < len(name) - 1]. *)
Definition split_suffix (name : string) : string * string :=
  let l := list_ascii_of_string name in
  match rfind_dot_from 0 l None with
  | Some i =>
      if (0 <? i)%nat && (i <? List.length l - 1)%nat
      then (string_of_list_ascii (firstn i l), string_of_list_ascii (skipn i l))
      else (name, "")
  | None => (name, "")
  end.

Definition path_stem (is_sep : ascii -> bool) (p : string) : string :=
  fst (split_suffix (path_name is_sep p)).
Definition path_suffix (is_sep : ascii -> bool) (p : string) : string :=
  snd (split_suffix (path_name is_sep p)).

(** [strftime("%Y%m%d_%H%M%S")] *)
Definition stamp (d : datetime) : string :=
  Py.fmt_0d 4 (dt_year d) ++ Py.fmt_0d 2 (dt_month d) ++ Py.fmt_0d 2 (dt_day d)
  ++ "_" ++ Py.fmt_0d 2 (dt_hour d) ++ Py.fmt_0d 2 (dt_minute d)
  ++ Py.fmt_0d 2 (dt_second d).

(** [strftime("%Y-%m-%d %H:%M:%S")] *)
Definition long_date (d : datetime) : string :=
  Py.fmt_0d 4 (dt_year d) ++ "-" ++ Py.fmt_0d 2 (dt_month d) ++ "-"
  ++ Py.fmt_0d 2 (dt_day d) ++ " " ++ Py.fmt_0d 2 (dt_hour d) ++ ":"
  ++ Py.fmt_0d 2 (dt_minute d) ++ ":" ++ Py.fmt_0d 2 (dt_second d).

Fixpoint assoc_get {A} (k : string) (m : list (string * A)) : option A :=
  match m with
  | [] => None
  | (k', v) :: m' => if String.eqb k k' then Some v else assoc_get k m'
  end.

(** ** Segments, results and the external engines *)

(** A WhisperX segment dict; [seg_speaker = None] when the ["speaker"]
    key is absent. *)
Record segment := mkSegment {
  seg_start : Q; seg_end : Q; seg_text : string; seg_speaker : option string }.

(** A WhisperX result dict: its ["segments"] and, when present, its
    ["language"]. *)
Record whisper_result := mkResult {
  res_segments : list segment; res_language : option string }.

(** Key of the model cache: [(model_size, device, compute_type, lang_code)]. *)
Record key := mkKey {
  k_model_size : string; k_device : string;
  k_compute_type : string; k_lang_code : option string }.

Definition opt_string_eqb (a b : option string) : bool :=
  match a, b with
  | Some x, Some y => String.eqb x y
  | None, None => true
  | _, _ => false
  end.

Definition key_eqb (a b : key) : bool :=
  String.eqb (k_model_size a) (k_model_size b)
  && String.eqb (k_device a) (k_device b)
  && String.eqb (k_compute_type a) (k_compute_type b)
  && opt_string_eqb (k_lang_code a) (k_lang_code b).

(** A value or a raised exception with its [str(e)]. *)
Inductive outcome (A : Type) := Ok (a : A) | Exc (msg : string).
Arguments Ok {A} a.
Arguments Exc {A} msg.

(** Opaque model handles and decoded audio. *)
Definition handle := nat.
Definition audio := nat.

(** The external engines.  [run_align] covers [load_align_model] and
    [align]; [run_diarize] covers [DiarizationPipeline(...)], the call on
    the audio and [assign_word_speakers]. *)
Record backend := mkBackend {
  load_model : key -> outcome handle;
  load_audio : string -> outcome audio;
  run_transcribe : handle -> audio -> nat -> outcome whisper_result;
  run_align : string -> audio -> list segment -> outcome whisper_result;
  run_diarize : string -> audio -> whisper_result -> outcome whisper_result }.

(** ** The world: model cache, trace of backend calls, file system *)

(** [_model_cache = {"key": ..., "model": ...}] *)
Record cache := mkCache { c_key : option key; c_model : option handle }.
Definition empty_cache : cache := mkCache None None.

Inductive event :=
| EvDestroy                 (** [del _model_cache["model"]] *)
| EvEmptyCache              (** [torch.cuda.empty_cache()] *)
| EvLoadModel (k : key)     (** [whisperx.load_model(...)] *)
| EvLoadAudio (p : string)  (** [whisperx.load_audio(...)] *)
| EvTranscribe              (** [model.transcribe(...)] *)
| EvAlign                   (** alignment attempted *)
| EvDiarize.                (** diarization attempted *)

Record world := mkWorld {
  w_cache : cache;
  w_events : list event;
  w_dirs : list string;
  w_files : list (string * string) }.

Definition set_cache (c : cache) (w : world) : world :=
  mkWorld c (w_events w) (w_dirs w) (w_files w).
Definition add_event (e : event) (w : world) : world :=
  mkWorld (w_cache w) (w_events w ++ [e]) (w_dirs w) (w_files w).
Definition add_dir (d : string) (w : world) : world :=
  mkWorld (w_cache w) (w_events w)
    (if existsb (String.eqb d) (w_dirs w) then w_dirs w else d :: w_dirs w)
    (w_files w).
(** Writing a file replaces any previous content at that path. *)
Definition put_file (path content : string) (w : world) : world :=
  mkWorld (w_cache w) (w_events w) (w_dirs w)
    ((path, content) :: filter (fun pc => negb (String.eqb (fst pc) path)) (w_files w)).

(** ** A state and exception monad *)

Definition M (A : Type) : Type := world -> outcome A * world.

Definition ret {A} (a : A) : M A := fun w => (Ok a, w).
Definition bind {A B} (m : M A) (k : A -> M B) : M B :=
  fun w => match m w with
           | (Ok a, w') => k a w'
           | (Exc e, w') => (Exc e, w')
           end.
Definition raise {A} (msg : string) : M A := fun w => (Exc msg, w).
(** [try: m except Exception as e: h(str(e))]; effects of [m] persist. *)
Definition try_catch {A} (m : M A) (h : string -> M A) : M A :=
  fun w => match m w with
           | (Ok a, w') => (Ok a, w')
           | (Exc e, w') => h e w'
           end.
Definition lift {A} (o : outcome A) : M A := fun w => (o, w).
Definition modify (f : world -> world) : M unit := fun w => (Ok tt, f w).
Definition get_world : M world := fun w => (Ok w, w).
Definition emit (e : event) : M unit := modify (add_event e).

Notation "x <- m ;; k" := (bind m (fun x => k))
  (at level 61, m at next level, right associativity).
Notation "m ;;; k" := (bind m (fun _ => k))
  (at level 61, right associativity).

(** ** [_get_model] (audioscribe_windows.py) *)

Module Win_cache.

(** [_model_cache["key"] == key and _model_cache["model"] is not None] *)
Definition cache_hit (c : cache) (k : key) : option handle :=
  match c_key c, c_model c with
  | Some k', Some m => if key_eqb k' k then Some m else None
  | _, _ => None
  end.

Definition _get_model (be : backend) (model_size device compute_type : string)
    (lang_code : option string) : M handle :=
  let k := mkKey model_size device compute_type lang_code in
  w <- get_world ;;
  match cache_hit (w_cache w) k with
  | Some m => ret m
  | None =>
      (* Free previous model *)
      (match c_model (w_cache w) with
       | Some _ =>
           emit EvDestroy ;;; modify (set_cache empty_cache) ;;;
           (if String.eqb device "cuda" then emit EvEmptyCache else ret tt)
       | None => ret tt
       end) ;;;
      emit (EvLoadModel k) ;;;
      m <- lift (load_model be k) ;;
      modify (set_cache (mkCache (Some k) (Some m))) ;;;
      ret m
  end.

End Win_cache.

(** ** [transcribe] (audioscribe_windows.py) *)

Module Win_app.
Import Win_cache.

Definition LANG_CODES : list (string * string) :=
  [("English", "en"); ("Spanish", "es"); ("French", "fr"); ("German", "de");
   ("Italian", "it"); ("Portuguese", "pt"); ("Dutch", "nl"); ("Russian", "ru");
   ("Chinese", "zh"); ("Japanese", "ja"); ("Korean", "ko"); ("Arabic", "ar");
   ("Hindi", "hi"); ("Turkish", "tr"); ("Polish", "pl"); ("Swedish", "sv");
   ("Danish", "da"); ("Norwegian", "no"); ("Finnish", "fi"); ("Greek", "el");
   ("Czech", "cs")].

(** [load_token]: [TOKEN_FILE.read_text().strip()] if the file exists. *)
Definition load_token (h : host) : string :=
  match token_file h with
  | Some t => Py.strip (Py.universal_newlines t)
  | None => ""
  end.

Definition FFMPEG_MISSING : string :=
  "FFmpeg is not installed." ++ nl ++ nl
  ++ "FFmpeg is required to decode audio files. Install it:" ++ nl
  ++ "  Windows:  winget install FFmpeg" ++ nl
  ++ "  macOS:    brew install ffmpeg" ++ nl ++ nl
  ++ "Then restart AudioScribe.".

Definition NO_SPEECH : string := "No speech detected in the audio file.".

Definition OUT_OF_MEMORY : string :=
  "Out of GPU memory." ++ nl ++ nl
  ++ "Try a smaller model:" ++ nl
  ++ "  tiny  — fastest, works on any hardware" ++ nl
  ++ "  base  — good balance of speed and accuracy" ++ nl
  ++ "  small — better accuracy, needs more memory" ++ nl ++ nl
  ++ "Or close other GPU-intensive applications.".

(** The [except Exception as e] handler of [transcribe]. *)
Definition failure_message (msg : string) : string :=
  if Py.contains "out of memory" (Py.lower msg) then OUT_OF_MEMORY else
  let hints := ["Try a smaller model (e.g. 'tiny')";
                "Ensure the audio file is not corrupted"] in
  let hints := if Py.contains "ffmpeg" (Py.lower msg)
                  || Py.contains "FileNotFoundError" msg
               then "Install FFmpeg:  winget install FFmpeg" :: hints
               else hints in
  "Transcription failed: " ++ msg ++ nl ++ nl
  ++ "Suggestions:" ++ nl ++ Py.join nl (map (fun h => "  - " ++ h) hints).

(** [speaker and speaker != current_speaker] *)
Definition speaker_changes (speaker current : option string) : bool :=
  match speaker with
  | Some sp => negb (String.eqb sp "") && negb (opt_string_eqb (Some sp) current)
  | None => false
  end.

(** The "Build transcript" loop: blank segments are skipped and, with
    diarization enabled, a [\n[SPEAKER]] marker precedes each change of
    speaker. *)
Fixpoint build_lines (enable_diarization : bool) (current_speaker : option string)
    (segs : list segment) : list string :=
  match segs with
  | [] => []
  | seg :: rest =>
      let speaker := seg_speaker seg in
      let text := Py.strip (seg_text seg) in
      if String.eqb text "" then build_lines enable_diarization current_speaker rest
      else if enable_diarization && speaker_changes speaker current_speaker
      then (nl ++ "[" ++ match speaker with Some sp => sp | None => "" end ++ "]")
             :: text :: build_lines enable_diarization speaker rest
      else text :: build_lines enable_diarization current_speaker rest
  end.

Definition build_transcript (enable_diarization : bool) (segs : list segment) : string :=
  Py.strip (Py.join nl (build_lines enable_diarization None segs)).

Definition output_path (h : host) (audio_path : string) : string :=
  downloads_dir h ++ "/" ++ path_stem windows_sep audio_path ++ "_"
  ++ stamp (clock_file h) ++ ".txt".

Definition cuda_empty_cache (device : string) : M unit :=
  if String.eqb device "cuda" then emit EvEmptyCache else ret tt.

(** "Transcribe": decode the audio, run the model, read the language. *)
Definition transcribe_stage (be : backend) (audio_path device : string)
    (lang_code : option string) (model : handle) : M (audio * whisper_result * string) :=
  emit (EvLoadAudio audio_path) ;;;
  a <- lift (load_audio be audio_path) ;;
  emit EvTranscribe ;;;
  result <- lift (run_transcribe be model a (if String.eqb device "cuda" then 16 else 4)) ;;
  let detected_lang :=
    match res_language result with
    | Some l => l
    | None => match lang_code with Some c => c | None => "unknown" end
    end in
  ret (a, result, detected_lang).

(** "Align timestamps": any exception keeps the unaligned result. *)
Definition align_stage (be : backend) (detected_lang : string) (a : audio)
    (result : whisper_result) : M whisper_result :=
  try_catch
    (emit EvAlign ;;; lift (run_align be detected_lang a (res_segments result)))
    (fun _ => ret result).

(** "Speaker diarization (optional)". *)
Definition diarize_stage (be : backend) (enable_diarization : bool) (token : string)
    (a : audio) (result : whisper_result) : M whisper_result :=
  if enable_diarization then
    if String.eqb token "" then ret result
    else try_catch (emit EvDiarize ;;; lift (run_diarize be token a result))
                   (fun _ => ret result)
  else ret result.

(** "Build transcript" and "Save to Downloads". *)
Definition save_stage (h : host) (audio_path : string) (enable_diarization : bool)
    (device : string) (result : whisper_result) : M string :=
  let transcript := build_transcript enable_diarization (res_segments result) in
  if String.eqb transcript "" then ret NO_SPEECH else
  modify (add_dir (downloads_dir h)) ;;;
  modify (put_file (output_path h audio_path) transcript) ;;;
  cuda_empty_cache device ;;;
  ret transcript.

(** The body of the [try] block. *)
Definition pipeline (be : backend) (h : host) (audio_path model_size : string)
    (enable_diarization : bool) (token device compute_type : string)
    (lang_code : option string) : M string :=
  model <- _get_model be model_size device compute_type lang_code ;;
  t <- transcribe_stage be audio_path device lang_code model ;;
  let '(a, result, detected_lang) := t in
  result <- align_stage be detected_lang a result ;;
  result <- diarize_stage be enable_diarization token a result ;;
  save_stage h audio_path enable_diarization device result.

Definition transcribe (be : backend) (h : host) (audio_path : option string)
    (language model_size : string) (enable_diarization : bool)
    (hf_token : option string) : M string :=
  match audio_path with
  | None => ret "Please upload an audio file."
  | Some p =>
      if negb (ffmpeg_on_path h) then ret FFMPEG_MISSING else
      let device := Win.get_device h in
      let compute_type := Win.get_compute_type device in
      let lang_code :=
        if String.eqb language "Auto-detect" then None
        else assoc_get language LANG_CODES in
      let token :=
        let t := Py.strip (match hf_token with Some t => t | None => "" end) in
        if String.eqb t "" then load_token h else t in
      try_catch
        (pipeline be h p model_size enable_diarization token device
                  compute_type lang_code)
        (fun msg => cuda_empty_cache device ;;; ret (failure_message msg))
  end.

End Win_app.

(** ** [transcribe] (audioscribe_mac.py) *)

Module Mac_app.

Definition LANGUAGES : list (string * option string) :=
  [("English", Some "en"); ("Spanish", Some "es"); ("French", Some "fr");
   ("German", Some "de"); ("Italian", Some "it"); ("Portuguese", Some "pt");
   ("Dutch", Some "nl"); ("Polish", Some "pl"); ("Russian", Some "ru");
   ("Japanese", Some "ja"); ("Chinese", Some "zh"); ("Korean", Some "ko");
   ("Arabic", Some "ar"); ("Turkish", Some "tr"); ("Hindi", Some "hi");
   ("Vietnamese", Some "vi"); ("Thai", Some "th"); ("Indonesian", Some "id");
   ("Ukrainian", Some "uk"); ("Czech", Some "cs"); ("Auto-detect", None)].

Definition AUDIO_FORMATS : list string :=
  [".mp3"; ".wav"; ".m4a"; ".aac"; ".flac"; ".ogg"; ".wma"].

Definition UNSUPPORTED : string :=
  "Unsupported file format. Supported formats: " ++ Py.join ", " AUDIO_FORMATS.

(** One display line of the "Format output" loop. *)
Definition render_line (seg : segment) : string :=
  let start_time := format_timestamp (seg_start seg) in
  let end_time := format_timestamp (seg_end seg) in
  let text := Py.strip (seg_text seg) in
  match seg_speaker seg with
  | Some speaker =>
      if negb (String.eqb speaker "")
      then "[" ++ start_time ++ " - " ++ end_time ++ "] [" ++ speaker ++ "]: " ++ text
      else "[" ++ start_time ++ " - " ++ end_time ++ "]: " ++ text
  | None => "[" ++ start_time ++ " - " ++ end_time ++ "]: " ++ text
  end.

Definition transcript_lines (segs : list segment) : list string := map render_line segs.
Definition full_text_lines (segs : list segment) : list string :=
  map (fun seg => Py.strip (seg_text seg)) segs.

Definition render (segs : list segment) : string * string :=
  (Py.join nl (transcript_lines segs), Py.join " " (full_text_lines segs)).

Definition SEP : string := Py.repeat_str "=" 60.

Definition output_path (h : host) (audio_path : string) : string :=
  downloads_dir h ++ "/" ++ path_stem posix_sep audio_path ++ "_transcript_"
  ++ stamp (clock_file h) ++ ".txt".

Definition file_content (h : host) (audio_path model_size detected_language
    transcript full_text : string) : string :=
  "AudioScribe Transcript" ++ nl
  ++ "File: " ++ path_name posix_sep audio_path ++ nl
  ++ "Date: " ++ long_date (clock_header h) ++ nl
  ++ "Model: " ++ model_size ++ nl
  ++ "Language: " ++ detected_language ++ nl
  ++ SEP ++ nl ++ nl
  ++ transcript
  ++ nl ++ nl ++ SEP ++ nl
  ++ "Full Text:" ++ nl ++ nl
  ++ full_text.

(** [open(output_path, "w")]: fails when the downloads directory is absent. *)
Definition open_write (dir path content : string) : M unit :=
  w <- get_world ;;
  if existsb (String.eqb dir) (w_dirs w)
  then modify (put_file path content)
  else raise ("[Errno 2] No such file or directory: '" ++ path ++ "'").

(** "Load model", "Load audio" and "Transcribe". *)
Definition transcribe_stage (be : backend) (audio_path device compute_type : string)
    (lang_code : option string) (model_size : string) : M (audio * whisper_result * string) :=
  let k := mkKey model_size device compute_type lang_code in
  emit (EvLoadModel k) ;;;
  model <- lift (load_model be k) ;;
  emit (EvLoadAudio audio_path) ;;;
  a <- lift (load_audio be audio_path) ;;
  emit EvTranscribe ;;;
  result <- lift (run_transcribe be model a 16) ;;
  let detected_language :=
    match res_language result with
    | Some l => l
    | None => match lang_code with Some c => c | None => "en" end
    end in
  ret (a, result, detected_language).

(** "Align whisper output": not guarded, an exception ends the run. *)
Definition align_stage (be : backend) (detected_language : string) (a : audio)
    (result : whisper_result) : M whisper_result :=
  emit EvAlign ;;;
  lift (run_align be detected_language a (res_segments result)).

(** "Speaker diarization (optional)". *)
Definition diarize_stage (be : backend) (enable_diarization : bool) (hf_token : string)
    (a : audio) (result : whisper_result) : M whisper_result :=
  if enable_diarization && negb (String.eqb hf_token "") then
    try_catch (emit EvDiarize ;;; lift (run_diarize be hf_token a result))
              (fun _ => ret result)
  else ret result.

(** "Format output" and "Save to file". *)
Definition save_stage (h : host) (audio_path model_size detected_language : string)
    (result : whisper_result) : M (string * string) :=
  let '(transcript, full_text) := render (res_segments result) in
  let out := output_path h audio_path in
  open_write (downloads_dir h) out
    (file_content h audio_path model_size detected_language transcript full_text) ;;;
  ret (transcript, "Saved to: " ++ out).

(** The body of the [try] block. *)
Definition pipeline (be : backend) (h : host) (audio_path language model_size : string)
    (enable_diarization : bool) (hf_token device compute_type : string)
    : M (string * string) :=
  let lang_code := match assoc_get language LANGUAGES with Some c => c | None => None end in
  t <- transcribe_stage be audio_path device compute_type lang_code model_size ;;
  let '(a, result, detected_language) := t in
  result <- align_stage be detected_language a result ;;
  result <- diarize_stage be enable_diarization hf_token a result ;;
  save_stage h audio_path model_size detected_language result.

Definition transcribe (be : backend) (h : host) (audio_file : option string)
    (language model_size : string) (enable_diarization : bool) (hf_token : string)
    : M (string * string) :=
  match audio_file with
  | None => ret ("Please upload an audio file.", "")
  | Some p =>
      (* Validate file extension *)
      if negb (existsb (String.eqb (Py.lower (path_suffix posix_sep p))) AUDIO_FORMATS)
      then ret (UNSUPPORTED, "")
      else
      let device := Mac.get_device h in
      let compute_type := Mac.get_compute_type device in
      try_catch
        (pipeline be h p language model_size enable_diarization hf_token device compute_type)
        (fun msg => ret ("Error during transcription: " ++ msg, ""))
  end.

End Mac_app.

(** ** Sequences of model acquisitions (Windows)

    Every call of [_get_model] comes from a [transcribe] run on the same
    host, with [device = get_device()]; an exception it raises is caught
    by that run. *)

Module Win_runs.
Import Win_cache.

Definition acquire (be : backend) (h : host) (req : string * option string) : M unit :=
  let device := Win.get_device h in
  try_catch
    (_ <- _get_model be (fst req) device (Win.get_compute_type device) (snd req) ;;
     ret tt)
    (fun _ => ret tt).

Fixpoint acquire_all (be : backend) (h : host) (reqs : list (string * option string))
    : M unit :=
  match reqs with
  | [] => ret tt
  | r :: rs => acquire be h r ;;; acquire_all be h rs
  end.

(** Reachable contents of [_model_cache] on host [h]. *)
Definition cache_ok (h : host) (c : cache) : Prop :=
  c = empty_cache \/
  exists k m, c = mkCache (Some k) (Some m) /\ k_device k = Win.get_device h.

End Win_runs.

(** ** Concrete inputs *)

Module Demo.

Definition clock1 : datetime := mkDatetime 2026 1 15 9 30 5.
Definition clock2 : datetime := mkDatetime 2026 1 15 9 30 7.

Definition host_of (cuda mps : bool) : host :=
  mkHost cuda mps true None "/home/user/Downloads" clock1 clock2.

Definition segments : list segment :=
  [mkSegment 0 (52 # 10) " Hello there." None;
   mkSegment (52 # 10) (97 # 10) " How are you?" None].

Definition blank_segments : list segment :=
  [mkSegment 0 1 "  " None; mkSegment 1 2 "" None].

Definition label (segs : list segment) : list segment :=
  map (fun s => mkSegment (seg_start s) (seg_end s) (seg_text s) (Some "SPEAKER_00")) segs.

(** Engines that succeed, except alignment when [align_ok = false] and
    diarization when [diarize_ok = false]. *)
Definition backend_of (segs : list segment) (align_ok diarize_ok : bool) : backend :=
  mkBackend
    (fun k => Ok (if String.eqb (k_model_size k) "tiny" then 1 else 2)%nat)
    (fun _ => Ok 0%nat)
    (fun _ _ _ => Ok (mkResult segs (Some "en")))
    (fun lang _ segs' =>
       if align_ok then Ok (mkResult segs' None)
       else Exc ("No default align-model for language: " ++ lang))
    (fun _ _ r =>
       if diarize_ok then Ok (mkResult (label (res_segments r)) (res_language r))
       else Exc "401 Client Error: Unauthorized").

Definition world0 : world := mkWorld empty_cache [] ["/home/user/Downloads"] [].
Definition world_no_downloads : world := mkWorld empty_cache [] [] [].

(** Engines for a file that is not audio: FFmpeg cannot decode it. *)
Definition backend_not_audio : backend :=
  mkBackend
    (fun k => Ok 1%nat)
    (fun p => Exc ("Failed to load audio: " ++ p ++ ": Invalid data found when processing input"))
    (fun _ _ _ => Ok (mkResult [] None))
    (fun _ _ segs => Ok (mkResult segs None))
    (fun _ _ r => Ok r).

Definition segments_with_blank : list segment :=
  [mkSegment 0 1 " Hi." None; mkSegment 1 2 "   " None].

End Demo.

(** What a run leaves behind apart from its log: the model cache, the
    directories and the files. *)
Definition observe (w : world) : cache * list string * list (string * string) :=
  (w_cache w, w_dirs w, w_files w).

Definition no_speakers (segs : list segment) : bool :=
  forallb (fun s => match seg_speaker s with None => true | Some _ => false end) segs.

(** Every segment's text is empty after [strip()]. *)
Definition all_blank (segs : list segment) : bool :=
  forallb (fun s => String.eqb (Py.strip (seg_text s)) "") segs.

(** Two decimal digits, zero-padded: the rendering claimed for the
    minute and second fields. *)
Definition digit (d : Z) : ascii := ascii_of_nat (48 + Z.to_nat d).
Definition two_digits (z : Z) : string :=
  String (digit (z / 10)) (String (digit (z mod 10)) EmptyString).

Ltac unfold_monad :=
  unfold bind, ret, raise, try_catch, lift, modify, get_world, emit in *.

(** Two runs with the same answer and the same cache, directories and
    files. *)
Definition same_run {A} (r1 r2 : outcome A * world) : Prop :=
  fst r1 = fst r2 /\ observe (snd r1) = observe (snd r2).

(** [m] leaves the directories and the files as they were. *)
Definition keeps_fs {A} (m : M A) : Prop :=
  forall w, w_dirs (snd (m w)) = w_dirs w /\ w_files (snd (m w)) = w_files w.

(** ** Token helpers *)

(** The token file [~/.audioscribe_token.txt] is the [token_file] field of
    the host; [TOKEN_FILE.write_text(t)] replaces it by [Some t]. *)
Definition set_token_file (tf : option string) (h : host) : host :=
  mkHost (cuda_available h) (mps_available h) (ffmpeg_on_path h) tf
    (downloads_dir h) (clock_file h) (clock_header h).

Module Win_tokens.

(** [save_token] (audioscribe_windows.py); [token_path] is
    [str(TOKEN_FILE)] and [linesep] is [os.linesep]. *)
Definition save_token (linesep token_path token : string) (h : host) : string * host :=
  let token := Py.strip token in
  if String.eqb token "" then ("No token provided.", h)
  else ("Token saved to " ++ token_path,
        set_token_file (Some (Py.translate_newlines linesep token)) h).

End Win_tokens.

Module Mac_tokens.

(** [load_token] (audioscribe_mac.py) *)
Definition load_token (h : host) : string :=
  match token_file h with
  | Some t => Py.strip (Py.universal_newlines t)
  | None => ""
  end.

(** [save_token] (audioscribe_mac.py); [linesep] is [os.linesep]. *)
Definition save_token (linesep token : string) (h : host) : string * host :=
  ("Token saved successfully!",
   set_token_file (Some (Py.translate_newlines linesep (Py.strip token))) h).

End Mac_tokens.

(** ** Traces *)

Definition is_empty_cache (e : event) : bool :=
  match e with EvEmptyCache => true | _ => false end.
Definition is_diarize (e : event) : bool :=
  match e with EvDiarize => true | _ => false end.

(** [m] only appends events to the trace, each of them satisfying [P]. *)
Definition only_events {A} (P : event -> bool) (m : M A) : Prop :=
  forall w, exists evs, w_events (snd (m w)) = (w_events w ++ evs)%list /\
                        forallb P evs = true.

(** A line of the Windows transcript that marks a change of speaker. *)
Definition is_marker (line : string) : bool := String.prefix nl line.

(** Ranges of the fields of a Python [datetime]. *)
Definition valid_datetime (d : datetime) : bool :=
  ((1 <=? dt_year d) && (dt_year d <=? 9999) && (1 <=? dt_month d) && (dt_month d <=? 12)
   && (1 <=? dt_day d) && (dt_day d <=? 31) && (0 <=? dt_hour d) && (dt_hour d <=? 23)
   && (0 <=? dt_minute d) && (dt_minute d <=? 59)
   && (0 <=? dt_second d) && (dt_second d <=? 59))%Z.

(** * Proofs *)

Example format_timestamp_125 : format_timestamp 125 = "02:05".
Proof. reflexivity. Qed.
Example format_timestamp_3725 : format_timestamp 3725 = "01:02:05".
Proof. reflexivity. Qed.
Example format_timestamp_frac : format_timestamp (359999 # 100) = "59:59".
Proof. reflexivity. Qed.
Example format_timestamp_100h : format_timestamp 360000 = "100:00:00".
Proof. reflexivity. Qed.

(** ** Timestamp rendering *)

Lemma Qfloor_unique (z : Z) (q : Q) :
  inject_Z z <= q -> q < inject_Z (z + 1) -> Qfloor q = z.
Proof.
  intros Hlo Hhi.
  pose proof (Qfloor_le q) as H1. pose proof (Qlt_floor q) as H2.
  assert (z <= Qfloor q)%Z.
  { rewrite <- (Qfloor_Z z). now apply Qfloor_resp_le. }
  assert (Qfloor q < z + 1)%Z.
  { rewrite Zlt_Qlt. eapply Qle_lt_trans; eauto. }
  lia.
Qed.

Lemma inject_Z_div_mod (n k : Z) :
  (0 < k)%Z -> inject_Z n == inject_Z k * inject_Z (n / k) + inject_Z (n mod k).
Proof.
  intros Hk. rewrite <- inject_Z_mult, <- inject_Z_plus.
  rewrite <- Z.div_mod by lia. reflexivity.
Qed.

Lemma Qfloor_div_split (n k : Z) (f : Q) :
  (0 < k)%Z -> 0 <= f -> f < 1 ->
  Qfloor ((inject_Z n + f) / inject_Z k) = (n / k)%Z.
Proof.
  intros Hk Hf0 Hf1.
  assert (Hkq : 0 < inject_Z k) by (change 0 with (inject_Z 0); rewrite <- Zlt_Qlt; lia).
  pose proof (inject_Z_div_mod n k Hk) as Hn.
  pose proof (Z.mod_pos_bound n k Hk) as [Hr0 Hr1].
  assert (0 <= inject_Z (n mod k)) by (change 0 with (inject_Z 0); rewrite <- Zle_Qle; lia).
  assert (inject_Z (n mod k) + 1 <= inject_Z k)
    by (rewrite <- (inject_Z_plus _ 1); rewrite <- Zle_Qle; lia).
  apply Qfloor_unique.
  - apply Qle_shift_div_l; [exact Hkq|].
    rewrite Hn, (Qmult_comm (inject_Z (n / k))). lra.
  - apply Qlt_shift_div_r; [exact Hkq|].
    rewrite inject_Z_plus, Qmult_plus_distr_l, Hn, (Qmult_comm (inject_Z (n / k))).
    change (inject_Z 1) with 1. lra.
Qed.

Lemma Qfloor_plus_frac (m : Z) (f : Q) :
  0 <= f -> f < 1 -> Qfloor (inject_Z m + f) = m.
Proof.
  intros. apply Qfloor_unique; rewrite ?inject_Z_plus;
    try change (inject_Z 1) with 1; lra.
Qed.

Lemma int_of_Z (z : Z) : Py.int_of (inject_Z z) = z.
Proof.
  unfold Py.int_of. destruct (Qle_bool 0 (inject_Z z)).
  - apply Qfloor_Z.
  - assert (E : - inject_Z z == inject_Z (- z)) by (rewrite inject_Z_opp; reflexivity).
    rewrite E, Qfloor_Z. lia.
Qed.

Lemma int_of_nonneg (q : Q) : 0 <= q -> Py.int_of q = Qfloor q.
Proof.
  intros H. unfold Py.int_of. apply Qle_bool_iff in H. now rewrite H.
Qed.

(** [s] split as its integer part [n] plus a fraction [f]. *)
Lemma Q_split_floor (s : Q) :
  let n := Qfloor s in
  let f := s - inject_Z n in
  0 <= f /\ f < 1 /\ s == inject_Z n + f.
Proof.
  cbv zeta. pose proof (Qfloor_le s). pose proof (Qlt_floor s).
  rewrite inject_Z_plus in *. change (inject_Z 1) with 1 in *. repeat split; lra.
Qed.

(** The three fields computed by [format_timestamp] on [s >= 0] are the
    truncations [n / 3600], [(n mod 3600) / 60] and [n mod 60] of the
    integer part [n] of [s]. *)
Lemma format_timestamp_fields (s : Q) :
  0 <= s ->
  let n := Qfloor s in
  Py.int_of (Py.floordiv s 3600) = (n / 3600)%Z /\
  Py.int_of (Py.floordiv (Py.pmod s 3600) 60) = ((n mod 3600) / 60)%Z /\
  Py.int_of (Py.pmod s 60) = (n mod 60)%Z.
Proof.
  intros Hs. cbv zeta.
  destruct (Q_split_floor s) as (Hf0 & Hf1 & Hsplit).
  set (n := Qfloor s) in *. set (f := s - inject_Z n) in *.
  assert (H3600 : Qfloor (s / 3600) = (n / 3600)%Z).
  { change 3600 with (inject_Z 3600). rewrite Hsplit.
    apply Qfloor_div_split; lia || assumption. }
  assert (Hm3600 : Py.pmod s 3600 == inject_Z (n mod 3600) + f).
  { unfold Py.pmod, Py.floordiv. rewrite H3600.
    rewrite Hsplit at 1. rewrite (inject_Z_div_mod n 3600) by lia.
    change (inject_Z 3600) with 3600. ring. }
  assert (H60 : Qfloor (s / 60) = (n / 60)%Z).
  { change 60 with (inject_Z 60). rewrite Hsplit.
    apply Qfloor_div_split; lia || assumption. }
  assert (Hm60 : Py.pmod s 60 == inject_Z (n mod 60) + f).
  { unfold Py.pmod, Py.floordiv. rewrite H60.
    rewrite Hsplit at 1. rewrite (inject_Z_div_mod n 60) by lia.
    change (inject_Z 60) with 60. ring. }
  split; [|split].
  - unfold Py.floordiv. now rewrite int_of_Z.
  - unfold Py.floordiv. rewrite int_of_Z. rewrite Hm3600.
    change 60 with (inject_Z 60). apply Qfloor_div_split; lia || assumption.
  - assert (Hpos : 0 <= Py.pmod s 60).
    { rewrite Hm60. assert (0 <= inject_Z (n mod 60))
        by (change 0 with (inject_Z 0); rewrite <- Zle_Qle;
            pose proof (Z.mod_pos_bound n 60); lia).
      lra. }
    rewrite int_of_nonneg by exact Hpos. rewrite Hm60.
    now apply Qfloor_plus_frac.
Qed.

Lemma fmt_02d_two_digits (z : Z) :
  (0 <= z < 100)%Z -> Py.fmt_0d 2 z = two_digits z.
Proof.
  intros Hz.
  assert (Hall : forallb (fun k => String.eqb (Py.fmt_0d 2 (Z.of_nat k))
                                              (two_digits (Z.of_nat k)))
                         (seq 0 100) = true) by (vm_compute; reflexivity).
  rewrite forallb_forall in Hall.
  specialize (Hall (Z.to_nat z)).
  rewrite Z2Nat.id in Hall by lia.
  apply String.eqb_eq, Hall, in_seq. lia.
Qed.

Lemma Qfloor_bounds_3600 (s : Q) :
  0 <= s ->
  (0 <= Qfloor s)%Z /\ (s < 3600 -> (Qfloor s < 3600)%Z) /\
  (3600 <= s -> (3600 <= Qfloor s)%Z) /\ (s < 360000 -> (Qfloor s < 360000)%Z).
Proof.
  intros Hs. pose proof (Qfloor_le s) as Hle.
  repeat split.
  - rewrite <- (Qfloor_Z 0). now apply Qfloor_resp_le.
  - intros Hlt. rewrite Zlt_Qlt. eapply Qle_lt_trans; [exact Hle|exact Hlt].
  - intros Hge. rewrite <- (Qfloor_Z 3600). now apply Qfloor_resp_le.
  - intros Hlt. rewrite Zlt_Qlt. eapply Qle_lt_trans; [exact Hle|exact Hlt].
Qed.

(** C7 (as amended): for [s >= 0] with integer part [n],
    [format_timestamp] truncates to whole seconds, renders [MM:SS] below
    one hour and [HH:MM:SS] from one hour on; the minute and second
    fields are always two zero-padded digits, the hour field is Python's
    [{:02d}], i.e. two digits below 100 hours. *)
Theorem format_timestamp_truncates (s : Q) :
  0 <= s ->
  let n := Qfloor s in
  (s < 3600 ->
     format_timestamp s = two_digits (n / 60) ++ ":" ++ two_digits (n mod 60)) /\
  (3600 <= s ->
     format_timestamp s = Py.fmt_0d 2 (n / 3600) ++ ":"
                          ++ two_digits ((n mod 3600) / 60) ++ ":"
                          ++ two_digits (n mod 60)) /\
  (s < 360000 -> Py.fmt_0d 2 (n / 3600) = two_digits (n / 3600)) /\
  format_timestamp 125 = "02:05" /\ format_timestamp 3725 = "01:02:05".
Proof.
  intros Hs. cbv zeta.
  destruct (format_timestamp_fields s Hs) as (Hh & Hm & Hsec).
  destruct (Qfloor_bounds_3600 s Hs) as (Hn0 & Hlt & Hge & Hlt100).
  set (n := Qfloor s) in *.
  assert (Hsec2 : Py.fmt_0d 2 (n mod 60) = two_digits (n mod 60))
    by (apply fmt_02d_two_digits; pose proof (Z.mod_pos_bound n 60); lia).
  unfold format_timestamp. rewrite Hh, Hm, Hsec, Hsec2.
  repeat split.
  - intros H. specialize (Hlt H).
    assert (E : (n / 3600 = 0)%Z) by (apply Z.div_small; lia).
    assert (E2 : (n mod 3600 = n)%Z) by (apply Z.mod_small; lia).
    rewrite E, E2. cbn [Z.gtb Z.compare].
    apply f_equal2; [|reflexivity].
    apply fmt_02d_two_digits. split; [apply Z.div_pos; lia|].
    apply Z.div_lt_upper_bound; lia.
  - intros H. specialize (Hge H).
    assert (E : (n / 3600 >? 0)%Z = true).
    { apply Z.gtb_lt. apply Z.div_str_pos. lia. }
    rewrite E. do 2 f_equal.
    apply f_equal2; [|reflexivity].
    apply fmt_02d_two_digits. pose proof (Z.mod_pos_bound n 3600). split.
    + apply Z.div_pos; lia.
    + apply Z.div_lt_upper_bound; lia.
  - intros H. apply fmt_02d_two_digits. specialize (Hlt100 H). split.
    + apply Z.div_pos; lia.
    + apply Z.div_lt_upper_bound; lia.
Qed.

(** C7 counterexample: from 100 hours on, the hour field has three
    digits, so the result is not made of two-digit fields. *)
Lemma format_timestamp_100h_three_digits :
  format_timestamp 360000 = "100:00:00" /\
  forall h m sec, two_digits h ++ ":" ++ two_digits m ++ ":" ++ two_digits sec
                  <> format_timestamp 360000.
Proof.
  split; [reflexivity|].
  intros h m sec E. apply (f_equal String.length) in E. discriminate E.
Qed.

Lemma format_timestamp_truncates_witness :
  0 <= 3725 /\
  format_timestamp 3725 = Py.fmt_0d 2 1 ++ ":" ++ two_digits 2 ++ ":" ++ two_digits 5.
Proof.
  assert (H : 0 <= 3725) by (apply Qle_bool_iff; reflexivity).
  split; [exact H|].
  apply (proj1 (proj2 (format_timestamp_truncates 3725 H))).
  apply Qle_bool_iff; reflexivity.
Defined.

(** ** The model cache *)

Section Cache.
Import Win_cache Win_runs.

Lemma key_eqb_refl (k : key) : key_eqb k k = true.
Proof.
  destruct k as [ms d ct [l|]]; unfold key_eqb, opt_string_eqb; cbn;
    now rewrite !String.eqb_refl.
Qed.

Lemma get_model_cache_ok (be : backend) (h : host) ms lc (w : world) :
  let device := Win.get_device h in
  cache_ok h (w_cache w) ->
  cache_ok h (w_cache (snd (_get_model be ms device (Win.get_compute_type device) lc w))).
Proof.
  cbv zeta. intros Hok.
  unfold _get_model, bind, get_world, ret, emit, modify, lift.
  destruct (cache_hit (w_cache w) _) as [m|] eqn:Hhit; [exact Hok|].
  destruct (c_model (w_cache w)) as [m0|];
    [destruct (String.eqb (Win.get_device h) "cuda")|];
    cbn; destruct (load_model be _) as [m'|e]; cbn;
    solve [left; reflexivity | right; eexists _, _; split; reflexivity | exact Hok].
Qed.

Lemma acquire_all_cache_ok (be : backend) (h : host) reqs (w : world) :
  cache_ok h (w_cache w) -> cache_ok h (w_cache (snd (acquire_all be h reqs w))).
Proof.
  revert w. induction reqs as [|r rs IH]; intros w Hok; [exact Hok|].
  cbn [acquire_all]. unfold bind at 1.
  destruct (acquire be h r w) as [o w'] eqn:Ha.
  assert (Hw' : cache_ok h (w_cache w')).
  { unfold acquire, try_catch, bind at 1 in Ha.
    pose proof (get_model_cache_ok be h (fst r) (snd r) w Hok) as Hg.
    destruct (_get_model be (fst r) _ _ (snd r) w) as [[m|e] w''];
      injection Ha as <- <-; exact Hg. }
  destruct o; [now apply IH|exact Hw'].
Qed.

(** C1: after any sequence of acquisitions on a host (starting from the
    empty cache), an acquisition whose key equals the cached key returns
    the cached handle and leaves the world, hence the trace of backend
    calls, unchanged; an acquisition with a different key destroys the
    cached model, calls [torch.cuda.empty_cache()] when that model lives
    on the GPU, and only then issues the backend load for the new key,
    whose result it returns. *)
Theorem get_model_reuses_or_evicts (be : backend) (h : host)
    (reqs : list (string * option string)) (w : world) (ms : string)
    (lc : option string) :
  w_cache w = empty_cache ->
  let w1 := snd (acquire_all be h reqs w) in
  let dev := Win.get_device h in
  let ct := Win.get_compute_type dev in
  let k := mkKey ms dev ct lc in
  (forall m, w_cache w1 = mkCache (Some k) (Some m) ->
     _get_model be ms dev ct lc w1 = (Ok m, w1)) /\
  (forall k0 m0, w_cache w1 = mkCache (Some k0) (Some m0) -> key_eqb k0 k = false ->
     fst (_get_model be ms dev ct lc w1) = load_model be k /\
     w_events (snd (_get_model be ms dev ct lc w1)) =
       (w_events w1 ++ [EvDestroy]
        ++ (if String.eqb (k_device k0) "cuda" then [EvEmptyCache] else [])
        ++ [EvLoadModel k])%list).
Proof.
  intros H0. cbv zeta.
  assert (Hok : cache_ok h (w_cache (snd (acquire_all be h reqs w))))
    by (apply acquire_all_cache_ok; left; exact H0).
  set (w1 := snd (acquire_all be h reqs w)) in *.
  split.
  - intros m Hc. unfold _get_model, bind, get_world, ret.
    unfold cache_hit. rewrite Hc. cbn. now rewrite key_eqb_refl.
  - intros k0 m0 Hc Hneq.
    assert (Hdev : k_device k0 = Win.get_device h).
    { destruct Hok as [E|(k1 & m1 & E & Hd)]; rewrite Hc in E; [discriminate|].
      injection E as -> ->. exact Hd. }
    rewrite Hdev.
    unfold _get_model, bind, get_world, ret, emit, modify, lift.
    unfold cache_hit. rewrite Hc. cbn -[key_eqb]. rewrite Hneq.
    destruct (String.eqb (Win.get_device h) "cuda");
      cbn; destruct (load_model be _); cbn; split; try reflexivity;
      rewrite <- !app_assoc; reflexivity.
Qed.

End Cache.

Lemma get_model_reuses_or_evicts_witness :
  let h := Demo.host_of false false in
  let be := Demo.backend_of Demo.segments true true in
  let w1 := snd (Win_runs.acquire_all be h [("tiny", Some "en")] Demo.world0) in
  w_cache Demo.world0 = empty_cache /\
  Win_cache._get_model be "tiny" "cpu" "int8" (Some "en") w1 = (Ok 1%nat, w1).
Proof.
  cbv zeta. split; [reflexivity|].
  apply (proj1 (get_model_reuses_or_evicts
                  (Demo.backend_of Demo.segments true true) (Demo.host_of false false)
                  [("tiny", Some "en")] Demo.world0 "tiny" (Some "en") eq_refl)).
  reflexivity.
Defined.

(** ** Degraded stages *)

Lemma build_lines_no_speakers (segs : list segment) (cur : option string) :
  no_speakers segs = true ->
  Win_app.build_lines true cur segs = Win_app.build_lines false cur segs.
Proof.
  revert cur. induction segs as [|s segs IH]; intros cur H; [reflexivity|].
  cbn in H. destruct (seg_speaker s) eqn:Hs; [discriminate|]. cbn in H.
  cbn [Win_app.build_lines]. rewrite Hs. cbn [Win_app.speaker_changes andb].
  destruct (String.eqb _ ""); [|f_equal]; now apply IH.
Qed.

Lemma build_transcript_no_speakers (segs : list segment) :
  no_speakers segs = true ->
  Win_app.build_transcript true segs = Win_app.build_transcript false segs.
Proof.
  intros H. unfold Win_app.build_transcript. now rewrite build_lines_no_speakers.
Qed.

Lemma bind_run {A B} (m : M A) (k : A -> M B) (w : world) :
  bind m k w = match m w with
               | (Ok a, w') => k a w'
               | (Exc e, w') => (Exc e, w')
               end.
Proof. reflexivity. Qed.

Lemma observe_eq_inv (w1 w2 : world) :
  observe w1 = observe w2 ->
  w_cache w1 = w_cache w2 /\ w_dirs w1 = w_dirs w2 /\ w_files w1 = w_files w2.
Proof. destruct w1, w2. cbn. intros H. injection H as -> -> ->. auto. Qed.

Lemma observe_add_event (e : event) (w : world) : observe (add_event e w) = observe w.
Proof. reflexivity. Qed.

Section Windows_stages.
Import Win_app.
Variable be : backend.

Lemma win_transcribe_stage_no_speakers p device lc model w a r d w' :
  (forall m a b r, run_transcribe be m a b = Ok r -> no_speakers (res_segments r) = true) ->
  transcribe_stage be p device lc model w = (Ok (a, r, d), w') ->
  no_speakers (res_segments r) = true.
Proof.
  intros Ht. unfold transcribe_stage. unfold_monad. cbn.
  destruct (load_audio be p); cbn; [|discriminate].
  destruct (run_transcribe be model _ _) eqn:E; cbn; [|discriminate].
  intros H. injection H as _ <- _ _. eauto.
Qed.

Lemma win_align_stage_no_speakers d a r w r' w' :
  (forall l a segs r, run_align be l a segs = Ok r -> no_speakers (res_segments r) = true) ->
  no_speakers (res_segments r) = true ->
  align_stage be d a r w = (Ok r', w') ->
  no_speakers (res_segments r') = true.
Proof.
  intros Ha Hr. unfold align_stage. unfold_monad. cbn.
  destruct (run_align be d a (res_segments r)) eqn:E; cbn;
    intros H; injection H as <- _; eauto.
Qed.

Lemma win_diarize_stage_fails token a r w :
  (forall t a r, exists e, run_diarize be t a r = Exc e) ->
  exists w', diarize_stage be true token a r w = (Ok r, w') /\ observe w' = observe w.
Proof.
  intros Hd. unfold diarize_stage.
  destruct (String.eqb token ""); [exists w; split; reflexivity|].
  destruct (Hd token a r) as [e He].
  unfold_monad. cbn. rewrite He. cbn. eexists; split; reflexivity.
Qed.

Lemma win_save_stage_same h p device r w1 w2 :
  no_speakers (res_segments r) = true ->
  observe w1 = observe w2 ->
  same_run (save_stage h p true device r w1) (save_stage h p false device r w2).
Proof.
  intros Hr Hw. unfold save_stage. rewrite build_transcript_no_speakers by exact Hr.
  destruct (String.eqb _ ""); [split; [reflexivity|exact Hw]|].
  destruct (observe_eq_inv _ _ Hw) as (Hc & Hdir & Hf).
  unfold cuda_empty_cache; destruct (String.eqb device "cuda");
    unfold_monad; cbn; split; try reflexivity;
    unfold observe, add_dir, put_file; cbn; rewrite Hc, Hdir, Hf; reflexivity.
Qed.

Lemma win_handler_same device msg w1 w2 :
  observe w1 = observe w2 ->
  same_run ((cuda_empty_cache device ;;; ret (failure_message msg)) w1)
           ((cuda_empty_cache device ;;; ret (failure_message msg)) w2).
Proof.
  intros Hw. unfold cuda_empty_cache.
  destruct (String.eqb device "cuda"); unfold_monad; cbn; split; auto.
Qed.

End Windows_stages.




Section Mac_stages.
Import Mac_app.
Variable be : backend.

Lemma mac_diarize_stage_fails tok a r w :
  (forall t a r, exists e, run_diarize be t a r = Exc e) ->
  exists w', diarize_stage be true tok a r w = (Ok r, w') /\ observe w' = observe w.
Proof.
  intros Hd. unfold diarize_stage. cbn [andb].
  destruct (negb (String.eqb tok "")); [|exists w; split; reflexivity].
  destruct (Hd tok a r) as [e He].
  unfold_monad. cbn. rewrite He. cbn. eexists; split; reflexivity.
Qed.

Lemma mac_save_stage_same h p ms d r w1 w2 :
  observe w1 = observe w2 ->
  same_run (save_stage h p ms d r w1) (save_stage h p ms d r w2).
Proof.
  destruct w1 as [c1 e1 d1 f1], w2 as [c2 e2 d2 f2].
  intros Hw. injection Hw as -> -> ->.
  unfold save_stage, open_write. destruct (render (res_segments r)) as [t ft].
  unfold_monad. cbn -[file_content output_path].
  destruct (existsb _ d2); split; reflexivity.
Qed.

End Mac_stages.

(** C3: when the diarization engine raises, a run with speaker
    identification enabled returns the same transcript and leaves the same
    cache, directories and files as the same run with it disabled, in both
    front ends (for the Windows one, given that WhisperX's transcription
    and alignment do not set a ["speaker"] key). *)
Theorem diarization_failure_same_as_disabled (be : backend) (h : host)
    (p : option string) (language model_size : string) (tok : option string)
    (mac_tok : string) (w : world) :
  (forall t a r, exists e, run_diarize be t a r = Exc e) ->
  (forall m a b r, run_transcribe be m a b = Ok r -> no_speakers (res_segments r) = true) ->
  (forall l a segs r, run_align be l a segs = Ok r -> no_speakers (res_segments r) = true) ->
  same_run (Win_app.transcribe be h p language model_size true tok w)
           (Win_app.transcribe be h p language model_size false tok w) /\
  same_run (Mac_app.transcribe be h p language model_size true mac_tok w)
           (Mac_app.transcribe be h p language model_size false mac_tok w).
Proof.
  intros Hd Ht Ha. split.
  - unfold Win_app.transcribe. destruct p as [p|]; [|split; reflexivity].
    destruct (negb (ffmpeg_on_path h)); [split; reflexivity|].
    cbv zeta. unfold try_catch. unfold Win_app.pipeline.
    rewrite !bind_run.
    destruct (Win_cache._get_model be _ _ _ _ w) as [[m|e] w1];
      [|apply win_handler_same; reflexivity].
    rewrite !bind_run.
    destruct (Win_app.transcribe_stage be _ _ _ m w1) as [[[[a r] d]|e] w2] eqn:ET;
      [|apply win_handler_same; reflexivity].
    pose proof (win_transcribe_stage_no_speakers be _ _ _ _ _ _ _ _ _ Ht ET) as Hr.
    rewrite !bind_run.
    destruct (Win_app.align_stage be d a r w2) as [[r'|e] w3] eqn:EA;
      [|apply win_handler_same; reflexivity].
    pose proof (win_align_stage_no_speakers be _ _ _ _ _ _ Ha Hr EA) as Hr'.
    rewrite !bind_run.
    match goal with
    | |- context [Win_app.diarize_stage be true ?tk a r' w3] =>
        destruct (win_diarize_stage_fails be tk a r' w3 Hd) as (w4 & -> & Hw4)
    end.
    cbn [Win_app.diarize_stage ret].
    pose proof (win_save_stage_same h p (Win.get_device h) r' w4 w3 Hr' Hw4) as [Ho Hobs].
    destruct (Win_app.save_stage h p true _ r' w4) as [o1 w5].
    destruct (Win_app.save_stage h p false _ r' w3) as [o2 w6].
    cbn in Ho, Hobs. subst o2.
    destruct o1; [split; [reflexivity|exact Hobs]|].
    apply win_handler_same; exact Hobs.
  - unfold Mac_app.transcribe. destruct p as [p|]; [|split; reflexivity].
    destruct (negb _); [split; reflexivity|].
    cbv zeta. unfold try_catch. unfold Mac_app.pipeline.
    rewrite !bind_run.
    destruct (Mac_app.transcribe_stage be _ _ _ _ _ w) as [[[[a r] d]|e] w1];
      [|split; reflexivity].
    rewrite !bind_run.
    destruct (Mac_app.align_stage be d a r w1) as [[r'|e] w2];
      [|split; reflexivity].
    rewrite !bind_run.
    destruct (mac_diarize_stage_fails be mac_tok a r' w2 Hd) as (w3 & -> & Hw3).
    cbn [Mac_app.diarize_stage andb ret].
    pose proof (mac_save_stage_same h p model_size d r' w3 w2 Hw3) as [Ho Hobs].
    destruct (Mac_app.save_stage h p model_size d r' w3) as [o1 w5].
    destruct (Mac_app.save_stage h p model_size d r' w2) as [o2 w6].
    cbn in Ho, Hobs. subst o2.
    destruct o1; split; cbn; auto.
Qed.

Lemma diarization_failure_same_as_disabled_witness :
  let be := Demo.backend_of Demo.segments false false in
  let h := Demo.host_of false false in
  same_run (Win_app.transcribe be h (Some "talk.mp3") "English" "tiny" true (Some "hf_x") Demo.world0)
           (Win_app.transcribe be h (Some "talk.mp3") "English" "tiny" false (Some "hf_x") Demo.world0) /\
  same_run (Mac_app.transcribe be h (Some "talk.mp3") "English" "tiny" true "hf_x" Demo.world0)
           (Mac_app.transcribe be h (Some "talk.mp3") "English" "tiny" false "hf_x" Demo.world0).
Proof.
  cbv zeta. apply diarization_failure_same_as_disabled.
  - intros t a r. eexists. reflexivity.
  - intros m a b r E. injection E as <-. reflexivity.
  - intros l a segs r E. discriminate E.
Defined.

(** ** Empty transcripts (Windows) *)

Section Windows_empty.
Import Win_cache Win_app.
Variable be : backend.

Lemma keeps_fs_get_model ms device ct lc : keeps_fs (_get_model be ms device ct lc).
Proof.
  intros w. unfold _get_model. unfold_monad. cbn.
  destruct (cache_hit _ _); [auto|].
  destruct (c_model (w_cache w)); [destruct (String.eqb device "cuda")|];
    cbn; destruct (load_model be _); cbn; auto.
Qed.

Lemma keeps_fs_transcribe_stage p device lc model :
  keeps_fs (transcribe_stage be p device lc model).
Proof.
  intros w. unfold transcribe_stage. unfold_monad. cbn.
  destruct (load_audio be p); cbn; [|auto].
  destruct (run_transcribe be _ _ _); cbn; auto.
Qed.

Lemma keeps_fs_align_stage d a r : keeps_fs (align_stage be d a r).
Proof.
  intros w. unfold align_stage. unfold_monad. cbn.
  destruct (run_align be d a _); cbn; auto.
Qed.

Lemma keeps_fs_diarize_stage enable token a r : keeps_fs (diarize_stage be enable token a r).
Proof.
  intros w. unfold diarize_stage.
  destruct enable; [|split; reflexivity].
  destruct (String.eqb token ""); [split; reflexivity|].
  unfold_monad. cbn. destruct (run_diarize be token a r); cbn; auto.
Qed.

Lemma build_lines_all_blank enable cur segs :
  all_blank segs = true -> build_lines enable cur segs = [].
Proof.
  revert cur. induction segs as [|s segs IH]; intros cur H; [reflexivity|].
  cbn in H. apply andb_true_iff in H as [Hs H].
  cbn [build_lines]. rewrite Hs. now apply IH.
Qed.

Lemma save_stage_all_blank h p enable device r w :
  all_blank (res_segments r) = true ->
  save_stage h p enable device r w = (Ok NO_SPEECH, w).
Proof.
  intros H. unfold save_stage, build_transcript.
  rewrite build_lines_all_blank by exact H. reflexivity.
Qed.

Lemma get_model_returns ms device ct lc w :
  (forall k, exists m, load_model be k = Ok m) ->
  exists m, fst (_get_model be ms device ct lc w) = Ok m.
Proof.
  intros Hl. unfold _get_model. unfold_monad. cbn.
  destruct (cache_hit _ _) as [m|]; [now exists m|].
  destruct (Hl (mkKey ms device ct lc)) as [m Hm].
  destruct (c_model (w_cache w)); [destruct (String.eqb device "cuda")|];
    cbn; rewrite Hm; cbn; now exists m.
Qed.

Lemma transcribe_stage_blank p device lc model w :
  (forall path, exists a, load_audio be path = Ok a) ->
  (forall m a b, exists r, run_transcribe be m a b = Ok r /\
                           all_blank (res_segments r) = true) ->
  exists a r d, fst (transcribe_stage be p device lc model w) = Ok (a, r, d) /\
                all_blank (res_segments r) = true.
Proof.
  intros Hau Htr. unfold transcribe_stage. unfold_monad. cbn.
  destruct (Hau p) as [a Ha]. rewrite Ha. cbn.
  destruct (Htr model a (if String.eqb device "cuda" then 16 else 4)%nat) as (r & Hr & Hb).
  rewrite Hr. cbn. eauto.
Qed.

Lemma align_stage_blank d a r w :
  (forall l a segs r, run_align be l a segs = Ok r -> all_blank (res_segments r) = true) ->
  all_blank (res_segments r) = true ->
  exists r', fst (align_stage be d a r w) = Ok r' /\ all_blank (res_segments r') = true.
Proof.
  intros Hal Hr. unfold align_stage. unfold_monad. cbn.
  destruct (run_align be d a _) eqn:E; cbn; eauto.
Qed.

Lemma diarize_stage_blank enable token a r w :
  (forall t a r r', run_diarize be t a r = Ok r' -> all_blank (res_segments r') = true) ->
  all_blank (res_segments r) = true ->
  exists r', fst (diarize_stage be enable token a r w) = Ok r' /\
             all_blank (res_segments r') = true.
Proof.
  intros Hdi Hr. unfold diarize_stage.
  destruct enable; [|cbn; eauto].
  destruct (String.eqb token ""); [cbn; eauto|].
  unfold_monad. cbn. destruct (run_diarize be token a r) eqn:E; cbn; eauto.
Qed.

End Windows_empty.

(** C10: in the Windows front end, a run whose segments are all blank
    after [strip()] (whatever alignment and diarization do) returns
    ["No speech detected in the audio file."] and creates neither a
    directory nor a file. *)
Theorem windows_no_speech_writes_nothing (be : backend) (h : host) (p language model_size : string)
    (enable_diarization : bool) (hf_token : option string) (w : world) :
  ffmpeg_on_path h = true ->
  (forall k, exists m, load_model be k = Ok m) ->
  (forall path, exists a, load_audio be path = Ok a) ->
  (forall m a b, exists r, run_transcribe be m a b = Ok r /\
                           all_blank (res_segments r) = true) ->
  (forall l a segs r, run_align be l a segs = Ok r -> all_blank (res_segments r) = true) ->
  (forall t a r r', run_diarize be t a r = Ok r' -> all_blank (res_segments r') = true) ->
  let run := Win_app.transcribe be h (Some p) language model_size enable_diarization hf_token w in
  fst run = Ok Win_app.NO_SPEECH /\ w_dirs (snd run) = w_dirs w /\
  w_files (snd run) = w_files w.
Proof.
  intros Hff Hl Hau Htr Hal Hdi. cbv zeta.
  unfold Win_app.transcribe. rewrite Hff. cbn [negb]. cbv zeta.
  unfold try_catch, Win_app.pipeline. rewrite bind_run.
  match goal with |- context [Win_cache._get_model be ?ms ?dv ?ct ?lc w] =>
    destruct (get_model_returns be ms dv ct lc w Hl) as [m Hm];
    destruct (keeps_fs_get_model be ms dv ct lc w) as [D1 F1];
    destruct (Win_cache._get_model be ms dv ct lc w) as [o1 w1]; cbn in Hm, D1, F1; subst o1
  end.
  rewrite bind_run.
  match goal with |- context [Win_app.transcribe_stage be ?pp ?dv ?lc m w1] =>
    destruct (transcribe_stage_blank be pp dv lc m w1 Hau Htr) as (a & r & d & Ht & Hb);
    destruct (keeps_fs_transcribe_stage be pp dv lc m w1) as [D2 F2];
    destruct (Win_app.transcribe_stage be pp dv lc m w1) as [o2 w2]; cbn in Ht, D2, F2; subst o2
  end.
  cbv beta iota. rewrite bind_run.
  destruct (align_stage_blank be d a r w2 Hal Hb) as (r2 & Ha2 & Hb2).
  destruct (keeps_fs_align_stage be d a r w2) as [D3 F3].
  destruct (Win_app.align_stage be d a r w2) as [o3 w3]; cbn in Ha2, D3, F3; subst o3.
  rewrite bind_run.
  match goal with |- context [Win_app.diarize_stage be ?en ?tk a r2 w3] =>
    destruct (diarize_stage_blank be en tk a r2 w3 Hdi Hb2) as (r3 & Ha3 & Hb3);
    destruct (keeps_fs_diarize_stage be en tk a r2 w3) as [D4 F4];
    destruct (Win_app.diarize_stage be en tk a r2 w3) as [o4 w4]; cbn in Ha3, D4, F4; subst o4
  end.
  rewrite save_stage_all_blank by exact Hb3. cbn.
  split; [reflexivity|]. split; congruence.
Qed.

Lemma windows_no_speech_writes_nothing_witness :
  let run := Win_app.transcribe (Demo.backend_of Demo.blank_segments false false)
               (Demo.host_of true false) (Some "silence.wav") "English" "tiny" true
               (Some "hf_x") Demo.world0 in
  fst run = Ok Win_app.NO_SPEECH /\ w_dirs (snd run) = w_dirs Demo.world0 /\
  w_files (snd run) = w_files Demo.world0.
Proof.
  apply windows_no_speech_writes_nothing.
  - reflexivity.
  - intros k. eexists. reflexivity.
  - intros path. eexists. reflexivity.
  - intros m a b. eexists. split; reflexivity.
  - intros l a segs r E. discriminate E.
  - intros t a r r' E. discriminate E.
Defined.

(** ** Evidence at concrete inputs *)

(** C2: with an alignment engine that raises, the Windows front end keeps
    the unaligned segments and saves the transcript, while the macOS front
    end ends the run with an error and saves nothing. *)
Theorem alignment_failure_aborts_mac_run :
  let be := Demo.backend_of Demo.segments false true in
  let h := Demo.host_of false false in
  let win := Win_app.transcribe be h (Some "talk.mp3") "English" "tiny" false None Demo.world0 in
  let mac := Mac_app.transcribe be h (Some "talk.mp3") "English" "tiny" false "" Demo.world0 in
  fst win = Ok ("Hello there." ++ nl ++ "How are you?") /\
  w_files (snd win) = [("/home/user/Downloads/talk_20260115_093005.txt",
                        "Hello there." ++ nl ++ "How are you?")] /\
  fst mac = Ok ("Error during transcription: No default align-model for language: en", "") /\
  w_files (snd mac) = [].
Proof. vm_compute. repeat split. Qed.

(** C4: the Windows front end has no extension check: a [.txt] path goes
    through model loading and audio decoding, and the run ends in the
    generic failure message; the macOS front end rejects it before any
    backend call. *)
Theorem windows_loads_model_for_txt :
  let h := Demo.host_of false false in
  let win := Win_app.transcribe Demo.backend_not_audio h (Some "notes.txt") "English" "tiny"
               false None Demo.world0 in
  let mac := Mac_app.transcribe Demo.backend_not_audio h (Some "notes.txt") "English" "tiny"
               false "" Demo.world0 in
  w_events (snd win) = [EvLoadModel (mkKey "tiny" "cpu" "int8" (Some "en"));
                        EvLoadAudio "notes.txt"] /\
  fst win = Ok (Win_app.failure_message
                  "Failed to load audio: notes.txt: Invalid data found when processing input") /\
  fst mac = Ok (Mac_app.UNSUPPORTED, "") /\ w_events (snd mac) = [].
Proof. vm_compute. repeat split. Qed.

(** C9: the macOS renderer keeps a blank segment, as a timestamped line
    with no text and as an empty word of the full text; the Windows one
    drops it. *)
Theorem mac_renders_blank_segment :
  Mac_app.render Demo.segments_with_blank =
    ("[00:00 - 00:01]: Hi." ++ nl ++ "[00:01 - 00:02]: ", "Hi. ") /\
  Win_app.build_transcript false Demo.segments_with_blank = "Hi.".
Proof. vm_compute. split; reflexivity. Qed.

(** ** Device selection *)

(** C8 counterexample: on a host where MPS is available and CUDA is not
    (an Apple-silicon Mac), the Windows resolver answers ["cpu"], not
    ["mps"]; the macOS resolver answers ["mps"]. *)
Lemma windows_get_device_ignores_mps :
  cuda_available (Demo.host_of false true) = false /\
  mps_available (Demo.host_of false true) = true /\
  Win.get_device (Demo.host_of false true) = "cpu" /\
  Mac.get_device (Demo.host_of false true) = "mps".
Proof. repeat split. Qed.

(** C8 (as amended): the macOS resolver tests ["mps"] first, then
    ["cuda"], then falls back to ["cpu"]; on a host that does not report
    both accelerators this is the order ["cuda"], ["mps"], ["cpu"]. The
    Windows resolver knows only ["cuda"] and ["cpu"]. *)
Theorem get_device_priority (h : host) :
  Mac.get_device h =
    (if mps_available h then "mps" else if cuda_available h then "cuda" else "cpu") /\
  (cuda_available h && mps_available h = false ->
   Mac.get_device h =
     (if cuda_available h then "cuda" else if mps_available h then "mps" else "cpu")) /\
  Win.get_device h = (if cuda_available h then "cuda" else "cpu") /\
  Win.get_device h <> "mps".
Proof.
  unfold Mac.get_device, Win.get_device. split; [reflexivity|]. split.
  - destruct (cuda_available h), (mps_available h); cbn; congruence.
  - split; [reflexivity|]. destruct (cuda_available h); discriminate.
Qed.

Lemma get_device_priority_witness :
  cuda_available (Demo.host_of true false) && mps_available (Demo.host_of true false) = false /\
  Mac.get_device (Demo.host_of true false) = "cuda".
Proof.
  split; [reflexivity|].
  apply (proj1 (proj2 (get_device_priority (Demo.host_of true false)))). reflexivity.
Defined.

(** ** The saved transcript *)

Section Saving.

Lemma win_handler_keeps_fs device msg :
  keeps_fs (Win_app.cuda_empty_cache device ;;; ret (Win_app.failure_message msg)).
Proof.
  intros w. unfold Win_app.cuda_empty_cache.
  destruct (String.eqb device "cuda"); unfold_monad; cbn; auto.
Qed.

Lemma win_save_stage_cases h p enable device r w :
  let run := Win_app.save_stage h p enable device r w in
  w_files (snd run) = w_files w \/
  (exists t, t <> "" /\ fst run = Ok t /\
             w_files (snd run) = w_files (put_file (Win_app.output_path h p) t w) /\
             In (downloads_dir h) (w_dirs (snd run))).
Proof.
  cbv zeta. unfold Win_app.save_stage.
  destruct (String.eqb (Win_app.build_transcript enable (res_segments r)) "") eqn:E;
    [left; reflexivity|].
  right. exists (Win_app.build_transcript enable (res_segments r)).
  apply String.eqb_neq in E.
  unfold Win_app.cuda_empty_cache. destruct (String.eqb device "cuda");
    unfold_monad; cbn; (split; [exact E|]); (split; [reflexivity|]);
    (split; [reflexivity|]); unfold add_dir; cbn;
    destruct (existsb (String.eqb (downloads_dir h)) (w_dirs w)) eqn:Ed; cbn; auto;
    apply existsb_exists in Ed as (x & Hx & Hxe); apply String.eqb_eq in Hxe;
    subst x; exact Hx.
Qed.

Lemma keeps_fs_mac_transcribe_stage be p device ct lc ms :
  keeps_fs (Mac_app.transcribe_stage be p device ct lc ms).
Proof.
  intros w. unfold Mac_app.transcribe_stage. unfold_monad. cbn.
  destruct (load_model be _); cbn; [|auto].
  destruct (load_audio be p); cbn; [|auto].
  destruct (run_transcribe be _ _ _); cbn; auto.
Qed.

Lemma keeps_fs_mac_align_stage be d a r : keeps_fs (Mac_app.align_stage be d a r).
Proof.
  intros w. unfold Mac_app.align_stage. unfold_monad. cbn.
  destruct (run_align be d a (res_segments r)); cbn; auto.
Qed.

Lemma keeps_fs_mac_diarize_stage be enable tok a r :
  keeps_fs (Mac_app.diarize_stage be enable tok a r).
Proof.
  intros w. unfold Mac_app.diarize_stage.
  destruct (enable && negb (String.eqb tok "")); [|split; reflexivity].
  unfold_monad. cbn. destruct (run_diarize be tok a r); cbn; auto.
Qed.

Lemma mac_save_stage_cases h p ms d r w :
  let run := Mac_app.save_stage h p ms d r w in
  w_files (snd run) = w_files w \/
  (exists t ft, Mac_app.render (res_segments r) = (t, ft) /\
     fst run = Ok (t, "Saved to: " ++ Mac_app.output_path h p) /\
     w_files (snd run) =
       w_files (put_file (Mac_app.output_path h p)
                  (Mac_app.file_content h p ms d t ft) w)).
Proof.
  cbv zeta. unfold Mac_app.save_stage, Mac_app.open_write.
  destruct (Mac_app.render (res_segments r)) as [t ft] eqn:Er.
  unfold_monad. cbn -[Mac_app.file_content Mac_app.output_path].
  destruct (existsb _ (w_dirs w)); [right|left; reflexivity].
  exists t, ft. repeat split.
Qed.

Lemma files_put_same x t w1 w :
  w_files w1 = w_files w -> w_files (put_file x t w1) = w_files (put_file x t w).
Proof. unfold put_file. cbn. intros ->. reflexivity. Qed.

(** The Windows [try] body either leaves the files as they were or writes
    exactly the transcript at [Win_app.output_path], in the downloads
    directory, which then exists. *)
Lemma win_pipeline_cases be h p ms enable tok device ct lc w :
  let run := Win_app.pipeline be h p ms enable tok device ct lc w in
  w_files (snd run) = w_files w \/
  (exists t, t <> "" /\ fst run = Ok t /\
             w_files (snd run) = w_files (put_file (Win_app.output_path h p) t w) /\
             In (downloads_dir h) (w_dirs (snd run))).
Proof.
  cbv zeta. unfold Win_app.pipeline. rewrite bind_run.
  destruct (keeps_fs_get_model be ms device ct lc w) as [_ F1].
  destruct (Win_cache._get_model be ms device ct lc w) as [[m|e] w1]; cbn in F1;
    [|left; exact F1].
  rewrite bind_run.
  destruct (keeps_fs_transcribe_stage be p device lc m w1) as [_ F2].
  destruct (Win_app.transcribe_stage be p device lc m w1) as [[[[a r] d]|e] w2]; cbn in F2;
    [|left; cbn; congruence].
  cbv beta iota. rewrite bind_run.
  destruct (keeps_fs_align_stage be d a r w2) as [_ F3].
  destruct (Win_app.align_stage be d a r w2) as [[r2|e] w3]; cbn in F3;
    [|left; cbn; congruence].
  rewrite bind_run.
  destruct (keeps_fs_diarize_stage be enable tok a r2 w3) as [_ F4].
  destruct (Win_app.diarize_stage be enable tok a r2 w3) as [[r3|e] w4]; cbn in F4;
    [|left; cbn; congruence].
  destruct (win_save_stage_cases h p enable device r3 w4) as [F5|(t & Ht & Ho & F5 & Hd)].
  - left. congruence.
  - right. exists t. split; [exact Ht|]. split; [exact Ho|]. split; [|exact Hd].
    rewrite F5. apply files_put_same. congruence.
Qed.

(** The same for the macOS [try] body: it writes [Mac_app.file_content] at
    [Mac_app.output_path]. *)
Lemma mac_pipeline_cases be h p language ms enable tok device ct w :
  let run := Mac_app.pipeline be h p language ms enable tok device ct w in
  w_files (snd run) = w_files w \/
  (exists segs d t ft, Mac_app.render segs = (t, ft) /\
     fst run = Ok (t, "Saved to: " ++ Mac_app.output_path h p) /\
     w_files (snd run) =
       w_files (put_file (Mac_app.output_path h p)
                  (Mac_app.file_content h p ms d t ft) w)).
Proof.
  cbv zeta. unfold Mac_app.pipeline. rewrite bind_run.
  match goal with |- context [Mac_app.transcribe_stage be p device ct ?lc ms w] =>
    destruct (keeps_fs_mac_transcribe_stage be p device ct lc ms w) as [_ F1];
    destruct (Mac_app.transcribe_stage be p device ct lc ms w) as [[[[a r] d]|e] w1];
    cbn in F1; [|left; exact F1]
  end.
  cbv beta iota. rewrite bind_run.
  destruct (keeps_fs_mac_align_stage be d a r w1) as [_ F2].
  destruct (Mac_app.align_stage be d a r w1) as [[r2|e] w2]; cbn in F2;
    [|left; cbn; congruence].
  rewrite bind_run.
  destruct (keeps_fs_mac_diarize_stage be enable tok a r2 w2) as [_ F3].
  destruct (Mac_app.diarize_stage be enable tok a r2 w2) as [[r3|e] w3]; cbn in F3;
    [|left; cbn; congruence].
  destruct (mac_save_stage_cases h p ms d r3 w3) as [F4|(t & ft & Hr & Ho & F4)].
  - left. congruence.
  - right. exists (res_segments r3), d, t, ft. split; [exact Hr|]. split; [exact Ho|].
    rewrite F4. apply files_put_same. congruence.
Qed.

End Saving.

(** C6 (code bug): the two front ends save different files, and neither
    does all the spec asks. On [talk.mp3] the Windows front end writes
    [<downloads>/talk_20260115_093005.txt] holding the bare transcript, with
    no metadata header, while the macOS front end writes a file that starts
    with the header and names the detected language. When the downloads
    directory is missing, the Windows front end creates it and saves, while
    the macOS front end creates nothing and answers with the error of
    [open()]. *)
Lemma transcript_file_divergence :
  let be := Demo.backend_of Demo.segments true true in
  let h := Demo.host_of false false in
  let win := Win_app.transcribe be h (Some "talk.mp3") "English" "tiny" false None in
  let mac := Mac_app.transcribe be h (Some "talk.mp3") "English" "tiny" false "" in
  w_files (snd (win Demo.world0)) =
    [("/home/user/Downloads/talk_20260115_093005.txt",
      "Hello there." ++ nl ++ "How are you?")] /\
  String.prefix "AudioScribe Transcript" ("Hello there." ++ nl ++ "How are you?") = false /\
  map fst (w_files (snd (mac Demo.world0))) =
    ["/home/user/Downloads/talk_transcript_20260115_093005.txt"] /\
  forallb (fun pc => String.prefix "AudioScribe Transcript" (snd pc) &&
                     Py.contains "Language: en" (snd pc))
    (w_files (snd (mac Demo.world0))) = true /\
  w_dirs (snd (win Demo.world_no_downloads)) = ["/home/user/Downloads"] /\
  map fst (w_files (snd (win Demo.world_no_downloads))) =
    ["/home/user/Downloads/talk_20260115_093005.txt"] /\
  fst (mac Demo.world_no_downloads) =
    Ok ("Error during transcription: [Errno 2] No such file or directory: " ++
        "'/home/user/Downloads/talk_transcript_20260115_093005.txt'", "") /\
  w_dirs (snd (mac Demo.world_no_downloads)) = [] /\
  w_files (snd (mac Demo.world_no_downloads)) = [].
Proof. vm_compute. repeat split. Qed.

(** * Further properties of the code *)

(** ** [str.strip] *)

Lemma lstrip_head (s : string) :
  Py.lstrip s = "" \/ exists c s', Py.lstrip s = String c s' /\ Py.is_space c = false.
Proof.
  induction s as [|c s IH]; cbn; [now left|].
  destruct (Py.is_space c) eqn:E; [exact IH|right; eauto].
Qed.

Lemma rstrip_idem (s : string) : Py.rstrip (Py.rstrip s) = Py.rstrip s.
Proof.
  induction s as [|c s IH]; cbn; [reflexivity|].
  destruct (Py.is_space c && String.eqb (Py.rstrip s) "") eqn:E; [reflexivity|].
  cbn. rewrite IH, E. reflexivity.
Qed.

Lemma strip_head (s : string) :
  Py.strip s = "" \/ exists c s', Py.strip s = String c s' /\ Py.is_space c = false.
Proof.
  unfold Py.strip. destruct (lstrip_head s) as [->|(c & s' & -> & Hc)]; [now left|].
  right. cbn. rewrite Hc. cbn. eauto.
Qed.

Lemma strip_idem (s : string) : Py.strip (Py.strip s) = Py.strip s.
Proof.
  destruct (strip_head s) as [E|(c & s' & E & Hc)]; rewrite E; [reflexivity|].
  unfold Py.strip at 1. cbn [Py.lstrip]. rewrite Hc. rewrite <- E.
  unfold Py.strip. apply rstrip_idem.
Qed.

Lemma strip_not_marker (s : string) : Py.strip s <> "" -> is_marker (Py.strip s) = false.
Proof.
  intros Hne. destruct (strip_head s) as [E|(c & s' & E & Hc)]; [contradiction|].
  rewrite E. unfold is_marker, nl. cbn [String.prefix].
  destruct (ascii_dec _ c) as [<-|]; [discriminate Hc|reflexivity].
Qed.

(** ** Token helpers *)

(** A file written with [os.linesep] ["\n"] or ["\r\n"] and read back
    with universal newlines gives the original text, when it holds no
    ["\r"]. *)
Lemma universal_newlines_no_cr (s : string) :
  Py.no_cr s = true -> Py.universal_newlines s = s.
Proof.
  induction s as [|c s IH]; [reflexivity|].
  unfold Py.no_cr. cbn [list_ascii_of_string forallb].
  intros H. apply andb_prop in H as [Hc Hs]. apply negb_true_iff in Hc.
  cbn [Py.universal_newlines]. rewrite Hc, IH by exact Hs. reflexivity.
Qed.

Lemma translate_newlines_lf (s : string) :
  Py.translate_newlines (String Py.LF "") s = s.
Proof.
  induction s as [|c s IH]; [reflexivity|]. cbn [Py.translate_newlines].
  destruct (Ascii.eqb c Py.LF) eqn:E.
  - apply Ascii.eqb_eq in E. subst c. cbn [append]. rewrite IH. reflexivity.
  - rewrite IH. reflexivity.
Qed.

Lemma universal_newlines_crlf (s : string) :
  Py.no_cr s = true ->
  Py.universal_newlines (Py.translate_newlines (String Py.CR (String Py.LF "")) s) = s.
Proof.
  induction s as [|c s IH]; [reflexivity|].
  unfold Py.no_cr. cbn [list_ascii_of_string forallb].
  intros H. apply andb_prop in H as [Hc Hs]. apply negb_true_iff in Hc.
  specialize (IH Hs). cbn [Py.translate_newlines].
  destruct (Ascii.eqb c Py.LF) eqn:E.
  - apply Ascii.eqb_eq in E. subst c. cbn [append Py.universal_newlines].
    rewrite Ascii.eqb_refl, Ascii.eqb_refl, IH. reflexivity.
  - cbn [Py.universal_newlines]. rewrite Hc, IH. reflexivity.
Qed.

Lemma written_token_read_back (linesep s : string) :
  (linesep = String Py.LF "" \/ linesep = String Py.CR (String Py.LF "")) ->
  Py.no_cr (Py.strip s) = true ->
  Py.strip (Py.universal_newlines (Py.translate_newlines linesep (Py.strip s))) = Py.strip s.
Proof.
  intros [-> | ->] Hn.
  - rewrite translate_newlines_lf, universal_newlines_no_cr by exact Hn. apply strip_idem.
  - rewrite universal_newlines_crlf by exact Hn. apply strip_idem.
Qed.

(** Windows [save_token] then [load_token]: a token that is blank after
    [strip()] is refused and the token file is left as it was; any other
    token is stripped and written with [write_text] (each ["\n"] becomes
    [os.linesep]). With [os.linesep] ["\n"] or ["\r\n"], a stripped
    token holding no ["\r"] is read back by [load_token] unchanged. *)
Theorem win_save_token_load_token (linesep token_path token : string) (h : host) :
  let r := Win_tokens.save_token linesep token_path token h in
  (Py.strip token = "" -> r = ("No token provided.", h)) /\
  (Py.strip token <> "" ->
     fst r = "Token saved to " ++ token_path /\
     token_file (snd r) = Some (Py.translate_newlines linesep (Py.strip token)) /\
     ((linesep = String Py.LF "" \/ linesep = String Py.CR (String Py.LF "")) ->
      Py.no_cr (Py.strip token) = true ->
      Win_app.load_token (snd r) = Py.strip token)).
Proof.
  cbv zeta. unfold Win_tokens.save_token. split.
  - intros ->. reflexivity.
  - intros Hne. apply String.eqb_neq in Hne. rewrite Hne. cbn.
    split; [reflexivity|]. split; [reflexivity|].
    apply written_token_read_back.
Qed.

Lemma win_save_token_load_token_witness :
  Py.strip " hf_abc " <> "" /\
  Win_app.load_token (snd (Win_tokens.save_token (String Py.CR (String Py.LF ""))
    "C:/Users/u/.audioscribe_token.txt" " hf_abc " (Demo.host_of false false))) = "hf_abc".
Proof.
  assert (H : Py.strip " hf_abc " <> "") by (vm_compute; discriminate).
  split; [exact H|].
  destruct (proj2 (win_save_token_load_token (String Py.CR (String Py.LF ""))
    "C:/Users/u/.audioscribe_token.txt" " hf_abc " (Demo.host_of false false)) H)
    as [_ [_ E]].
  rewrite E; [vm_compute; reflexivity|right; reflexivity|vm_compute; reflexivity].
Defined.

(** macOS [save_token] then [load_token]: every token, blank or not, is
    stripped and written with [write_text] (each ["\n"] becomes
    [os.linesep]), with the same answer. With [os.linesep] ["\n"] or
    ["\r\n"], a stripped token holding no ["\r"] is read back by
    [load_token] unchanged; a blank token is read back as the empty
    string. *)
Theorem mac_save_token_load_token (linesep token : string) (h : host) :
  let r := Mac_tokens.save_token linesep token h in
  fst r = "Token saved successfully!" /\
  token_file (snd r) = Some (Py.translate_newlines linesep (Py.strip token)) /\
  ((linesep = String Py.LF "" \/ linesep = String Py.CR (String Py.LF "")) ->
   Py.no_cr (Py.strip token) = true ->
   Mac_tokens.load_token (snd r) = Py.strip token).
Proof.
  cbn. split; [reflexivity|]. split; [reflexivity|].
  apply written_token_read_back.
Qed.

Lemma mac_save_token_load_token_witness :
  Mac_tokens.load_token (snd (Mac_tokens.save_token (String Py.LF "")
    "  hf_xyz" (Demo.host_of false true))) = "hf_xyz".
Proof.
  destruct (mac_save_token_load_token (String Py.LF "") "  hf_xyz"
    (Demo.host_of false true)) as [_ [_ E]].
  rewrite E; [vm_compute; reflexivity|left; reflexivity|vm_compute; reflexivity].
Defined.

Lemma load_token_stripped (h : host) : Py.strip (Win_app.load_token h) = Win_app.load_token h.
Proof.
  unfold Win_app.load_token. destruct (token_file h); [apply strip_idem|reflexivity].
Qed.

Lemma win_pipeline_host be h h' p ms enable tok device ct lc :
  downloads_dir h = downloads_dir h' -> clock_file h = clock_file h' ->
  Win_app.pipeline be h p ms enable tok device ct lc =
  Win_app.pipeline be h' p ms enable tok device ct lc.
Proof.
  intros H1 H2. unfold Win_app.pipeline, Win_app.save_stage, Win_app.output_path.
  rewrite H1, H2. reflexivity.
Qed.

(** Windows [transcribe], [token = (hf_token or "").strip() or
    load_token()]: leaving the token field blank is the same as typing
    in the saved token. *)
Theorem win_blank_token_field_uses_saved_token (be : backend) (h : host)
    (p : option string) (language model_size : string) (enable_diarization : bool)
    (hf_token : option string) (w : world) :
  Py.strip (match hf_token with Some t => t | None => "" end) = "" ->
  Win_app.transcribe be h p language model_size enable_diarization hf_token w =
  Win_app.transcribe be h p language model_size enable_diarization
    (Some (Win_app.load_token h)) w.
Proof.
  intros Hb. unfold Win_app.transcribe. destruct p as [p|]; [|reflexivity].
  cbv zeta. rewrite Hb, load_token_stripped.
  destruct (String.eqb (Win_app.load_token h) ""); reflexivity.
Qed.

Lemma win_blank_token_field_uses_saved_token_witness :
  Py.strip (match Some "   " with Some t => t | None => "" end) = "" /\
  Win_app.transcribe (Demo.backend_of Demo.segments true true) (Demo.host_of false false)
    (Some "talk.mp3") "English" "tiny" true (Some "   ") Demo.world0 =
  Win_app.transcribe (Demo.backend_of Demo.segments true true) (Demo.host_of false false)
    (Some "talk.mp3") "English" "tiny" true
    (Some (Win_app.load_token (Demo.host_of false false))) Demo.world0.
Proof.
  split; [reflexivity|]. apply win_blank_token_field_uses_saved_token. reflexivity.
Defined.

(** Windows [transcribe]: a token typed in the field (non-blank after
    [strip()]) is used as is, so the run does not depend on the saved
    token file. *)
Theorem win_typed_token_ignores_saved_token (be : backend) (h : host)
    (p : option string) (language model_size : string) (enable_diarization : bool)
    (t : string) (saved : option string) (w : world) :
  Py.strip t <> "" ->
  Win_app.transcribe be h p language model_size enable_diarization (Some t) w =
  Win_app.transcribe be (set_token_file saved h) p language model_size
    enable_diarization (Some t) w.
Proof.
  intros Hne. apply String.eqb_neq in Hne.
  unfold Win_app.transcribe. destruct p as [p|]; [|reflexivity].
  cbv zeta. rewrite Hne.
  rewrite (win_pipeline_host be (set_token_file saved h) h) by reflexivity.
  reflexivity.
Qed.

Lemma win_typed_token_ignores_saved_token_witness :
  Py.strip "hf_abc" <> "" /\
  Win_app.transcribe (Demo.backend_of Demo.segments true true) (Demo.host_of false false)
    (Some "talk.mp3") "English" "tiny" true (Some "hf_abc") Demo.world0 =
  Win_app.transcribe (Demo.backend_of Demo.segments true true)
    (set_token_file (Some "hf_old") (Demo.host_of false false))
    (Some "talk.mp3") "English" "tiny" true (Some "hf_abc") Demo.world0.
Proof.
  assert (H : Py.strip "hf_abc" <> "") by (vm_compute; discriminate).
  split; [exact H|]. apply win_typed_token_ignores_saved_token. exact H.
Defined.

(** ** The Windows failure message *)

Lemma prefix_self_app (b c : string) : String.prefix b (b ++ c) = true.
Proof.
  induction b as [|x b IH]; [destruct c; reflexivity|].
  cbn. destruct (ascii_dec x x) as [_|n]; [exact IH|now destruct n].
Qed.

Lemma prefix_app_cancel (a b c : string) : String.prefix (a ++ b) (a ++ c) = String.prefix b c.
Proof.
  induction a as [|x a IH]; [reflexivity|].
  cbn. destruct (ascii_dec x x) as [_|n]; [exact IH|now destruct n].
Qed.

(** The [except] handler of Windows [transcribe] answers with the fixed
    out-of-memory advice exactly when the exception text, lowercased,
    contains ["out of memory"]; otherwise its answer starts with
    ["Transcription failed: "] followed by the exception text. *)
Theorem win_failure_message_shape (msg : string) :
  (Win_app.failure_message msg = Win_app.OUT_OF_MEMORY <->
   Py.contains "out of memory" (Py.lower msg) = true) /\
  (Py.contains "out of memory" (Py.lower msg) = false ->
   String.prefix ("Transcription failed: " ++ msg) (Win_app.failure_message msg) = true).
Proof.
  unfold Win_app.failure_message.
  destruct (Py.contains "out of memory" (Py.lower msg)).
  - split; [split; reflexivity|discriminate].
  - split.
    + split; [|discriminate]. cbv zeta. intros E. discriminate E.
    + intros _. cbv zeta.
      rewrite prefix_app_cancel. apply prefix_self_app.
Qed.

Lemma win_failure_message_shape_witness :
  Win_app.failure_message "CUDA out of memory. Tried to allocate" = Win_app.OUT_OF_MEMORY /\
  String.prefix ("Transcription failed: " ++ "No such file")
    (Win_app.failure_message "No such file") = true.
Proof.
  split.
  - apply (proj1 (win_failure_message_shape "CUDA out of memory. Tried to allocate")).
    vm_compute. reflexivity.
  - apply (proj2 (win_failure_message_shape "No such file")). vm_compute. reflexivity.
Defined.

(** ** Which engine calls a run makes *)

Lemma oe_ret {A} P (a : A) : only_events P (ret a).
Proof. intros w. exists []. rewrite app_nil_r. split; reflexivity. Qed.

Lemma oe_raise {A} P (msg : string) : only_events P (@raise A msg).
Proof. intros w. exists []. rewrite app_nil_r. split; reflexivity. Qed.

Lemma oe_lift {A} P (o : outcome A) : only_events P (lift o).
Proof. intros w. exists []. rewrite app_nil_r. split; reflexivity. Qed.

Lemma oe_get_world P : only_events P get_world.
Proof. intros w. exists []. rewrite app_nil_r. split; reflexivity. Qed.

Lemma oe_modify P (f : world -> world) :
  (forall w, w_events (f w) = w_events w) -> only_events P (modify f).
Proof. intros Hf w. exists []. cbn. rewrite Hf, app_nil_r. split; reflexivity. Qed.

Lemma oe_emit P (e : event) : P e = true -> only_events P (emit e).
Proof. intros He w. exists [e]. cbn. rewrite He. split; reflexivity. Qed.

Lemma oe_bind {A B} P (m : M A) (k : A -> M B) :
  only_events P m -> (forall a, only_events P (k a)) -> only_events P (bind m k).
Proof.
  intros Hm Hk w. unfold bind. destruct (Hm w) as (e1 & H1 & P1).
  destruct (m w) as [[a|e] w']; cbn in *.
  - destruct (Hk a w') as (e2 & H2 & P2). exists (e1 ++ e2)%list.
    rewrite H2, H1, app_assoc, forallb_app, P1, P2. split; reflexivity.
  - exists e1. split; assumption.
Qed.

Lemma oe_try {A} P (m : M A) (h : string -> M A) :
  only_events P m -> (forall e, only_events P (h e)) -> only_events P (try_catch m h).
Proof.
  intros Hm Hh w. unfold try_catch. destruct (Hm w) as (e1 & H1 & P1).
  destruct (m w) as [[a|e] w']; cbn in *.
  - exists e1. split; assumption.
  - destruct (Hh e w') as (e2 & H2 & P2). exists (e1 ++ e2)%list.
    rewrite H2, H1, app_assoc, forallb_app, P1, P2. split; reflexivity.
Qed.

Lemma only_events_not_in P (e : event) (evs : list event) :
  P e = false -> forallb P evs = true -> ~ In e evs.
Proof.
  intros He Hall Hin. rewrite forallb_forall in Hall.
  specialize (Hall e Hin). congruence.
Qed.

Section Win_events.
Import Win_cache Win_app.
Variable P : event -> bool.
Hypothesis HP : forall e, is_empty_cache e = false -> is_diarize e = false -> P e = true.

Local Ltac oe_step :=
  first
    [ apply oe_bind; [|intros ?]
    | apply oe_try; [|intros ?]
    | apply oe_ret | apply oe_raise | apply oe_lift | apply oe_get_world
    | apply oe_modify; intros; reflexivity
    | apply oe_emit; apply HP; reflexivity ].

Lemma oe_get_model be ms device ct lc :
  (String.eqb device "cuda" = true -> P EvEmptyCache = true) ->
  only_events P (_get_model be ms device ct lc).
Proof.
  intros Hc. unfold _get_model.
  apply oe_bind; [apply oe_get_world|intros w0].
  destruct (cache_hit (w_cache w0) _); [apply oe_ret|].
  apply oe_bind; [|intros _; repeat oe_step].
  destruct (c_model (w_cache w0)); [|apply oe_ret].
  repeat oe_step.
  destruct (String.eqb device "cuda") eqn:E; [apply oe_emit; auto|apply oe_ret].
Qed.

Lemma oe_win_pipeline be h p ms enable tok device ct lc :
  (String.eqb device "cuda" = true -> P EvEmptyCache = true) ->
  (enable = true -> String.eqb tok "" = false -> P EvDiarize = true) ->
  only_events P (pipeline be h p ms enable tok device ct lc).
Proof.
  intros Hc Hd. unfold pipeline.
  apply oe_bind; [apply oe_get_model; exact Hc|intros m].
  apply oe_bind; [unfold transcribe_stage; repeat oe_step|intros [[a r] d]].
  apply oe_bind; [unfold align_stage; repeat oe_step|intros r2].
  apply oe_bind; [|intros r3].
  - unfold diarize_stage. destruct enable; [|apply oe_ret].
    destruct (String.eqb tok "") eqn:E; [apply oe_ret|].
    apply oe_try; [|intros; apply oe_ret].
    apply oe_bind; [apply oe_emit; auto|intros; apply oe_lift].
  - unfold save_stage. cbv zeta.
    destruct (String.eqb (build_transcript enable (res_segments r3)) ""); [apply oe_ret|].
    repeat oe_step. unfold cuda_empty_cache.
    destruct (String.eqb device "cuda"); [apply oe_emit; auto|apply oe_ret].
Qed.

Lemma oe_win_transcribe be h p language ms enable hf_token :
  (cuda_available h = true -> P EvEmptyCache = true) ->
  (enable = true -> P EvDiarize = false ->
   Py.strip (match hf_token with Some t => t | None => "" end) = "" /\ load_token h = "") ->
  only_events P (transcribe be h p language ms enable hf_token).
Proof.
  intros Hc Hd. unfold transcribe. destruct p as [p|]; [|apply oe_ret].
  destruct (negb (ffmpeg_on_path h)); [apply oe_ret|]. cbv zeta.
  assert (Hc' : String.eqb (Win.get_device h) "cuda" = true -> P EvEmptyCache = true).
  { unfold Win.get_device. destruct (cuda_available h); [auto|discriminate]. }
  apply oe_try.
  - apply oe_win_pipeline; [exact Hc'|].
    intros He Ht. destruct (P EvDiarize) eqn:EP; [reflexivity|].
    destruct (Hd He eq_refl) as [H1 H2]. rewrite H1, H2 in Ht. discriminate Ht.
  - intros e. unfold cuda_empty_cache.
    destruct (String.eqb (Win.get_device h) "cuda") eqn:E;
      (apply oe_bind; [|intros; apply oe_ret]); [apply oe_emit; auto|apply oe_ret].
Qed.

End Win_events.

Section Mac_events.
Import Mac_app.
Variable P : event -> bool.
Hypothesis HP : forall e, is_diarize e = false -> P e = true.

Local Ltac oe_step :=
  first
    [ apply oe_bind; [|intros ?]
    | apply oe_try; [|intros ?]
    | apply oe_ret | apply oe_raise | apply oe_lift | apply oe_get_world
    | apply oe_modify; intros; reflexivity
    | apply oe_emit; apply HP; reflexivity ].

Lemma oe_mac_pipeline be h p language ms enable tok device ct :
  (enable = true -> String.eqb tok "" = false -> P EvDiarize = true) ->
  only_events P (pipeline be h p language ms enable tok device ct).
Proof.
  intros Hd. unfold pipeline. cbv zeta.
  apply oe_bind; [unfold transcribe_stage; repeat oe_step|intros [[a r] d]].
  apply oe_bind; [unfold align_stage; repeat oe_step|intros r2].
  apply oe_bind; [|intros r3].
  - unfold diarize_stage. destruct enable; [|apply oe_ret].
    destruct (String.eqb tok "") eqn:E; [apply oe_ret|].
    apply oe_try; [|intros; apply oe_ret].
    apply oe_bind; [apply oe_emit; auto|intros; apply oe_lift].
  - unfold save_stage. destruct (render _). unfold open_write.
    repeat oe_step. destruct (existsb _ _); repeat oe_step.
Qed.

Lemma oe_mac_transcribe be h p language ms enable hf_token :
  (enable = true -> hf_token <> "" -> P EvDiarize = true) ->
  only_events P (transcribe be h p language ms enable hf_token).
Proof.
  intros Hd. unfold transcribe. destruct p as [p|]; [|apply oe_ret].
  destruct (negb _); [apply oe_ret|]. cbv zeta.
  apply oe_try; [|intros; apply oe_ret].
  apply oe_mac_pipeline. intros He Ht. apply String.eqb_neq in Ht. auto.
Qed.

End Mac_events.

(** On a host without CUDA, a Windows run never calls
    [torch.cuda.empty_cache()]: neither when the cache evicts a model, nor
    after saving, nor in the exception handler. *)
Theorem win_cpu_run_never_empties_cuda_cache (be : backend) (h : host)
    (p : option string) (language model_size : string) (enable_diarization : bool)
    (hf_token : option string) (w : world) :
  cuda_available h = false ->
  exists evs,
    w_events (snd (Win_app.transcribe be h p language model_size enable_diarization
                     hf_token w)) = (w_events w ++ evs)%list /\
    ~ In EvEmptyCache evs.
Proof.
  intros Hc.
  destruct (oe_win_transcribe (fun e => negb (is_empty_cache e))
              ltac:(intros e He _; cbv beta; rewrite He; reflexivity)
              be h p language model_size enable_diarization hf_token
              ltac:(intros H; congruence)
              ltac:(intros _ E; discriminate E) w) as (evs & He & Hall).
  exists evs. split; [exact He|]. eapply only_events_not_in; [|exact Hall]; reflexivity.
Qed.

Lemma win_cpu_run_never_empties_cuda_cache_witness :
  cuda_available (Demo.host_of false false) = false /\
  exists evs,
    w_events (snd (Win_app.transcribe (Demo.backend_of Demo.segments false false)
                     (Demo.host_of false false) (Some "talk.mp3") "English" "tiny" true
                     (Some "hf_x") Demo.world0)) = (w_events Demo.world0 ++ evs)%list /\
    ~ In EvEmptyCache evs.
Proof.
  split; [reflexivity|]. apply win_cpu_run_never_empties_cuda_cache. reflexivity.
Defined.

(** A Windows run calls the diarization engine only when diarization is
    enabled and a token is available: the field's token after [strip()],
    or else the saved one. *)
Theorem win_diarization_needs_token (be : backend) (h : host)
    (p : option string) (language model_size : string) (enable_diarization : bool)
    (hf_token : option string) (w : world) :
  enable_diarization = false \/
  (Py.strip (match hf_token with Some t => t | None => "" end) = "" /\
   Win_app.load_token h = "") ->
  exists evs,
    w_events (snd (Win_app.transcribe be h p language model_size enable_diarization
                     hf_token w)) = (w_events w ++ evs)%list /\
    ~ In EvDiarize evs.
Proof.
  intros Hoff.
  destruct (oe_win_transcribe (fun e => negb (is_diarize e))
              ltac:(intros e _ Hd; cbv beta; rewrite Hd; reflexivity)
              be h p language model_size enable_diarization hf_token
              ltac:(intros; reflexivity)
              ltac:(intros He _; destruct Hoff as [E|E]; [congruence|exact E]) w)
    as (evs & He & Hall).
  exists evs. split; [exact He|]. eapply only_events_not_in; [|exact Hall]; reflexivity.
Qed.

Lemma win_diarization_needs_token_witness :
  (true = false \/
   (Py.strip (match Some " " with Some t => t | None => "" end) = "" /\
    Win_app.load_token (Demo.host_of false false) = "")) /\
  exists evs,
    w_events (snd (Win_app.transcribe (Demo.backend_of Demo.segments true true)
                     (Demo.host_of false false) (Some "talk.mp3") "English" "tiny" true
                     (Some " ") Demo.world0)) = (w_events Demo.world0 ++ evs)%list /\
    ~ In EvDiarize evs.
Proof.
  assert (H : true = false \/
              (Py.strip (match Some " " with Some t => t | None => "" end) = "" /\
               Win_app.load_token (Demo.host_of false false) = ""))
    by (right; split; reflexivity).
  split; [exact H|]. apply win_diarization_needs_token. exact H.
Defined.

(** A macOS run calls the diarization engine only when diarization is
    enabled and the token string is not empty (it is not stripped). *)
Theorem mac_diarization_needs_token (be : backend) (h : host)
    (p : option string) (language model_size : string) (enable_diarization : bool)
    (hf_token : string) (w : world) :
  enable_diarization = false \/ hf_token = "" ->
  exists evs,
    w_events (snd (Mac_app.transcribe be h p language model_size enable_diarization
                     hf_token w)) = (w_events w ++ evs)%list /\
    ~ In EvDiarize evs.
Proof.
  intros Hoff.
  destruct (oe_mac_transcribe (fun e => negb (is_diarize e))
              ltac:(intros e Hd; cbv beta; rewrite Hd; reflexivity)
              be h p language model_size enable_diarization hf_token
              ltac:(intros He Ht; destruct Hoff; congruence) w)
    as (evs & He & Hall).
  exists evs. split; [exact He|]. eapply only_events_not_in; [|exact Hall]; reflexivity.
Qed.

Lemma mac_diarization_needs_token_witness :
  (false = false \/ "hf_x" = "") /\
  exists evs,
    w_events (snd (Mac_app.transcribe (Demo.backend_of Demo.segments true true)
                     (Demo.host_of false false) (Some "talk.mp3") "English" "tiny" false
                     "hf_x" Demo.world0)) = (w_events Demo.world0 ++ evs)%list /\
    ~ In EvDiarize evs.
Proof.
  split; [left; reflexivity|]. apply mac_diarization_needs_token. left; reflexivity.
Defined.

Lemma win_save_stage_cuda h p enable device r w :
  String.eqb device "cuda" = true ->
  fst (Win_app.save_stage h p enable device r w) = Ok Win_app.NO_SPEECH \/
  exists evs, w_events (snd (Win_app.save_stage h p enable device r w)) =
              (evs ++ [EvEmptyCache])%list.
Proof.
  intros Hc. unfold Win_app.save_stage.
  destruct (String.eqb (Win_app.build_transcript enable (res_segments r)) "");
    [left; reflexivity|right].
  unfold Win_app.cuda_empty_cache. rewrite Hc. unfold_monad. cbn.
  eexists. reflexivity.
Qed.

Lemma win_pipeline_cuda be h p ms enable tok device ct lc w :
  String.eqb device "cuda" = true ->
  let run := Win_app.pipeline be h p ms enable tok device ct lc w in
  (exists e, fst run = Exc e) \/ fst run = Ok Win_app.NO_SPEECH \/
  exists evs, w_events (snd run) = (evs ++ [EvEmptyCache])%list.
Proof.
  intros Hc. cbv zeta. unfold Win_app.pipeline. rewrite bind_run.
  destruct (Win_cache._get_model be ms device ct lc w) as [[m|e] w1];
    [|left; exists e; reflexivity].
  rewrite bind_run.
  destruct (Win_app.transcribe_stage be p device lc m w1) as [[[[a r] d]|e] w2];
    [|left; exists e; reflexivity].
  cbv beta iota. rewrite bind_run.
  destruct (Win_app.align_stage be d a r w2) as [[r2|e] w3];
    [|left; exists e; reflexivity].
  rewrite bind_run.
  destruct (Win_app.diarize_stage be enable tok a r2 w3) as [[r3|e] w4];
    [|left; exists e; reflexivity].
  right. apply win_save_stage_cuda. exact Hc.
Qed.

(** On a CUDA host, every Windows run past the FFmpeg check ends with a
    call to [torch.cuda.empty_cache()], whether it saved a transcript or
    failed with an exception; the one exception is an empty transcript,
    which returns "No speech detected in the audio file." first. *)
Theorem win_cuda_run_ends_with_empty_cache (be : backend) (h : host)
    (p language model_size : string) (enable_diarization : bool)
    (hf_token : option string) (w : world) :
  cuda_available h = true -> ffmpeg_on_path h = true ->
  let run := Win_app.transcribe be h (Some p) language model_size enable_diarization
               hf_token w in
  fst run = Ok Win_app.NO_SPEECH \/
  exists evs, w_events (snd run) = (evs ++ [EvEmptyCache])%list.
Proof.
  intros Hc Hf. cbv zeta. unfold Win_app.transcribe. rewrite Hf. cbn [negb].
  cbv zeta. unfold try_catch.
  assert (Hd : String.eqb (Win.get_device h) "cuda" = true)
    by (unfold Win.get_device; rewrite Hc; reflexivity).
  match goal with |- context [Win_app.pipeline be h p model_size enable_diarization ?tk ?dv ?ct ?lc w] =>
    destruct (win_pipeline_cuda be h p model_size enable_diarization tk dv ct lc w Hd)
      as [[e He]|[Ho|He]];
    destruct (Win_app.pipeline be h p model_size enable_diarization tk dv ct lc w) as [o w1];
    cbn in *
  end.
  - subst o. right. unfold Win_app.cuda_empty_cache. rewrite Hd. unfold_monad. cbn.
    eexists. reflexivity.
  - subst o. left. reflexivity.
  - destruct o as [t|e].
    + right. exact He.
    + right. unfold Win_app.cuda_empty_cache. rewrite Hd. unfold_monad. cbn.
      eexists. reflexivity.
Qed.

Lemma win_cuda_run_ends_with_empty_cache_witness :
  cuda_available (Demo.host_of true false) = true /\
  ffmpeg_on_path (Demo.host_of true false) = true /\
  (fst (Win_app.transcribe (Demo.backend_of Demo.segments false false) (Demo.host_of true false)
          (Some "talk.mp3") "English" "tiny" true (Some "hf_x") Demo.world0) = Ok Win_app.NO_SPEECH \/
   exists evs, w_events (snd (Win_app.transcribe (Demo.backend_of Demo.segments false false)
          (Demo.host_of true false) (Some "talk.mp3") "English" "tiny" true (Some "hf_x")
          Demo.world0)) = (evs ++ [EvEmptyCache])%list).
Proof.
  split; [reflexivity|]. split; [reflexivity|].
  apply (win_cuda_run_ends_with_empty_cache _ _ "talk.mp3"); reflexivity.
Defined.

(** ** macOS without a downloads directory *)

Lemma mac_save_stage_no_dir h p ms d r w :
  ~ In (downloads_dir h) (w_dirs w) ->
  exists e, Mac_app.save_stage h p ms d r w = (Exc e, w).
Proof.
  intros Hn. unfold Mac_app.save_stage, Mac_app.open_write.
  destruct (Mac_app.render (res_segments r)) as [t ft].
  assert (E : existsb (String.eqb (downloads_dir h)) (w_dirs w) = false).
  { destruct (existsb _ _) eqn:E; [|reflexivity].
    apply existsb_exists in E as (x & Hx & Hxe). apply String.eqb_eq in Hxe.
    subst x. contradiction. }
  unfold_monad. cbn -[Mac_app.output_path]. rewrite E. eexists. reflexivity.
Qed.

Lemma mac_pipeline_no_dir be h p language ms enable tok device ct w :
  ~ In (downloads_dir h) (w_dirs w) ->
  let run := Mac_app.pipeline be h p language ms enable tok device ct w in
  (exists e, fst run = Exc e) /\ w_files (snd run) = w_files w /\
  w_dirs (snd run) = w_dirs w.
Proof.
  intros Hn. cbv zeta. unfold Mac_app.pipeline. rewrite bind_run.
  match goal with |- context [Mac_app.transcribe_stage be p device ct ?lc ms w] =>
    destruct (keeps_fs_mac_transcribe_stage be p device ct lc ms w) as [D1 F1];
    destruct (Mac_app.transcribe_stage be p device ct lc ms w) as [[[[a r] d]|e] w1];
    cbn in D1, F1; [|split; [exists e; reflexivity|auto]]
  end.
  cbv beta iota. rewrite bind_run.
  destruct (keeps_fs_mac_align_stage be d a r w1) as [D2 F2].
  destruct (Mac_app.align_stage be d a r w1) as [[r2|e] w2]; cbn in D2, F2;
    [|split; [exists e; reflexivity|cbn; split; congruence]].
  rewrite bind_run.
  destruct (keeps_fs_mac_diarize_stage be enable tok a r2 w2) as [D3 F3].
  destruct (Mac_app.diarize_stage be enable tok a r2 w2) as [[r3|e] w3]; cbn in D3, F3;
    [|split; [exists e; reflexivity|cbn; split; congruence]].
  destruct (mac_save_stage_no_dir h p ms d r3 w3) as [e ->]; [congruence|].
  split; [exists e; reflexivity|cbn; split; congruence].
Qed.

(** When the downloads directory is missing, a macOS run does not create
    it and saves nothing: the directories and the files are left as they
    were, and the second output (the save status) is empty. *)
Theorem mac_missing_downloads_saves_nothing (be : backend) (h : host)
    (p : option string) (language model_size : string) (enable_diarization : bool)
    (hf_token : string) (w : world) :
  ~ In (downloads_dir h) (w_dirs w) ->
  let run := Mac_app.transcribe be h p language model_size enable_diarization hf_token w in
  (exists msg, fst run = Ok (msg, "")) /\ w_files (snd run) = w_files w /\
  w_dirs (snd run) = w_dirs w.
Proof.
  intros Hn. cbv zeta. unfold Mac_app.transcribe.
  destruct p as [p|]; [|split; [eexists; reflexivity|split; reflexivity]].
  destruct (negb _); [split; [eexists; reflexivity|split; reflexivity]|].
  cbv zeta. unfold try_catch.
  match goal with |- context [Mac_app.pipeline be h p language model_size enable_diarization hf_token ?dv ?ct w] =>
    destruct (mac_pipeline_no_dir be h p language model_size enable_diarization hf_token dv ct w Hn)
      as [[e He] [F D]];
    destruct (Mac_app.pipeline be h p language model_size enable_diarization hf_token dv ct w)
      as [o w1];
    cbn in He, F, D; subst o
  end.
  cbn. split; [eexists; reflexivity|split; assumption].
Qed.

Lemma mac_missing_downloads_saves_nothing_witness :
  ~ In (downloads_dir (Demo.host_of false false)) (w_dirs Demo.world_no_downloads) /\
  let run := Mac_app.transcribe (Demo.backend_of Demo.segments true true)
               (Demo.host_of false false) (Some "talk.mp3") "English" "tiny" false ""
               Demo.world_no_downloads in
  (exists msg, fst run = Ok (msg, "")) /\ w_files (snd run) = w_files Demo.world_no_downloads /\
  w_dirs (snd run) = w_dirs Demo.world_no_downloads.
Proof.
  assert (H : ~ In (downloads_dir (Demo.host_of false false)) (w_dirs Demo.world_no_downloads))
    by (cbn; tauto).
  split; [exact H|]. apply mac_missing_downloads_saves_nothing. exact H.
Defined.

(** ** macOS: the file format gate and the model load *)

Lemma sw_emit {B} (e : event) (k : M B) :
  only_events (fun _ => true) k ->
  forall w, exists evs, w_events (snd ((emit e ;;; k) w)) = (w_events w ++ e :: evs)%list.
Proof.
  intros Hk w. destruct (Hk (add_event e w)) as (evs & H & _).
  exists evs. change ((emit e ;;; k) w) with (k (add_event e w)). rewrite H.
  cbn. rewrite <- app_assoc. reflexivity.
Qed.

Lemma sw_bind {A B} (e : event) (m : M A) (k : A -> M B) :
  (forall w, exists evs, w_events (snd (m w)) = (w_events w ++ e :: evs)%list) ->
  (forall a, only_events (fun _ => true) (k a)) ->
  forall w, exists evs, w_events (snd (bind m k w)) = (w_events w ++ e :: evs)%list.
Proof.
  intros Hm Hk w. unfold bind. destruct (Hm w) as (e1 & H1).
  destruct (m w) as [[a|x] w']; cbn in *.
  - destruct (Hk a w') as (e2 & H2 & _). exists (e1 ++ e2)%list.
    rewrite H2, H1, <- app_assoc. reflexivity.
  - exists e1. exact H1.
Qed.

Lemma sw_try {A} (e : event) (m : M A) (h : string -> M A) :
  (forall w, exists evs, w_events (snd (m w)) = (w_events w ++ e :: evs)%list) ->
  (forall x, only_events (fun _ => true) (h x)) ->
  forall w, exists evs, w_events (snd (try_catch m h w)) = (w_events w ++ e :: evs)%list.
Proof.
  intros Hm Hh w. unfold try_catch. destruct (Hm w) as (e1 & H1).
  destruct (m w) as [[a|x] w']; cbn in *.
  - exists e1. exact H1.
  - destruct (Hh x w') as (e2 & H2 & _). exists (e1 ++ e2)%list.
    rewrite H2, H1, <- app_assoc. reflexivity.
Qed.

Ltac oe_true :=
  repeat first
    [ apply oe_bind; [|intros ?]
    | apply oe_try; [|intros ?]
    | apply oe_ret | apply oe_raise | apply oe_lift | apply oe_get_world
    | apply oe_modify; intros; reflexivity
    | apply oe_emit; reflexivity ].

(** macOS [transcribe] checks the lowercased suffix of the file name
    against [AUDIO_FORMATS]: a file outside the list is refused with the
    list of formats and nothing else happens; a file on the list starts
    the run with a fresh [whisperx.load_model] (the macOS front end keeps
    no model cache), for the selected model size and language and the
    resolved device and compute type. *)
Theorem mac_format_gate_then_model_load (be : backend) (h : host)
    (p language model_size : string) (enable_diarization : bool) (hf_token : string)
    (w : world) :
  let run := Mac_app.transcribe be h (Some p) language model_size enable_diarization
               hf_token w in
  let ok := existsb (String.eqb (Py.lower (path_suffix posix_sep p))) Mac_app.AUDIO_FORMATS in
  let device := Mac.get_device h in
  let lang_code := match assoc_get language Mac_app.LANGUAGES with
                   | Some c => c | None => None end in
  (ok = false -> run = (Ok (Mac_app.UNSUPPORTED, ""), w)) /\
  (ok = true ->
   exists evs, w_events (snd run) =
     (w_events w ++ EvLoadModel (mkKey model_size device (Mac.get_compute_type device)
                                   lang_code) :: evs)%list).
Proof.
  cbv zeta. unfold Mac_app.transcribe. split; intros Hok; rewrite Hok; [reflexivity|].
  cbn [negb]. apply sw_try; [|intros; oe_true].
  unfold Mac_app.pipeline. cbv zeta.
  apply sw_bind; [|intros [[a r] d]].
  - unfold Mac_app.transcribe_stage. cbv zeta. apply sw_emit. oe_true.
  - unfold Mac_app.align_stage, Mac_app.diarize_stage, Mac_app.save_stage,
      Mac_app.open_write.
    oe_true.
    all: try (destruct (enable_diarization && _); oe_true).
    all: destruct (existsb (String.eqb (downloads_dir h)) _); oe_true.
Qed.

Lemma mac_format_gate_then_model_load_witness :
  let run := Mac_app.transcribe (Demo.backend_of Demo.segments true true)
               (Demo.host_of false true) (Some "Talk.MP3") "Auto-detect" "base" false ""
               Demo.world0 in
  let ok := existsb (String.eqb (Py.lower (path_suffix posix_sep "Talk.MP3")))
              Mac_app.AUDIO_FORMATS in
  let device := Mac.get_device (Demo.host_of false true) in
  let lang_code := match assoc_get "Auto-detect" Mac_app.LANGUAGES with
                   | Some c => c | None => None end in
  (ok = false -> run = (Ok (Mac_app.UNSUPPORTED, ""), Demo.world0)) /\
  (ok = true ->
   exists evs, w_events (snd run) =
     (w_events Demo.world0 ++ EvLoadModel (mkKey "base" device (Mac.get_compute_type device)
                                   lang_code) :: evs)%list).
Proof. exact (mac_format_gate_then_model_load _ _ _ _ _ _ _ _). Defined.

(** ** Windows model cache: a failed load *)

(** When the backend raises while [_get_model] loads a model that is not
    cached, the exception propagates and no model is left in the cache:
    a previously cached model has already been released. *)
Theorem get_model_failed_load_leaves_no_model (be : backend)
    (model_size device compute_type : string) (lang_code : option string)
    (w : world) (msg : string) :
  let k := mkKey model_size device compute_type lang_code in
  Win_cache.cache_hit (w_cache w) k = None ->
  load_model be k = Exc msg ->
  let run := Win_cache._get_model be model_size device compute_type lang_code w in
  fst run = Exc msg /\ c_model (w_cache (snd run)) = None /\
  (c_model (w_cache w) <> None -> In EvDestroy (w_events (snd run))).
Proof.
  cbv zeta. intros Hmiss Hload. unfold Win_cache._get_model.
  unfold_monad. cbn -[Win_cache.cache_hit]. rewrite Hmiss.
  destruct (c_model (w_cache w)) as [m0|] eqn:Em.
  - destruct (String.eqb device "cuda"); cbn; rewrite Hload; cbn;
      (split; [reflexivity|split; [reflexivity|]]); intros _;
      repeat rewrite in_app_iff; cbn; tauto.
  - cbn. rewrite Hload. cbn. rewrite Em.
    split; [reflexivity|split; [reflexivity|]]. intros H; contradiction.
Qed.

Lemma get_model_failed_load_leaves_no_model_witness :
  let be := mkBackend (fun _ => Exc "CUDA out of memory") (fun _ => Ok 0%nat)
              (fun _ _ _ => Ok (mkResult [] None)) (fun _ _ segs => Ok (mkResult segs None))
              (fun _ _ r => Ok r) in
  let w := mkWorld (mkCache (Some (mkKey "tiny" "cuda" "float16" (Some "en"))) (Some 1%nat))
             [] [] [] in
  let k := mkKey "base" "cuda" "float16" (Some "en") in
  Win_cache.cache_hit (w_cache w) k = None /\ load_model be k = Exc "CUDA out of memory" /\
  let run := Win_cache._get_model be "base" "cuda" "float16" (Some "en") w in
  fst run = Exc "CUDA out of memory" /\ c_model (w_cache (snd run)) = None /\
  (c_model (w_cache w) <> None -> In EvDestroy (w_events (snd run))).
Proof.
  cbv zeta. split; [reflexivity|]. split; [reflexivity|].
  apply get_model_failed_load_leaves_no_model; reflexivity.
Defined.

(** ** The Windows transcript lines *)

Lemma build_lines_plain (cur : option string) (segs : list segment) :
  Win_app.build_lines false cur segs =
  map (fun s => Py.strip (seg_text s))
      (filter (fun s => negb (String.eqb (Py.strip (seg_text s)) "")) segs).
Proof.
  induction segs as [|s segs IH]; [reflexivity|].
  cbn [Win_app.build_lines filter]. destruct (String.eqb (Py.strip (seg_text s)) ""); cbn;
    rewrite IH; reflexivity.
Qed.

(** The lines of the Windows transcript: with diarization disabled they
    are the stripped texts of the non-blank segments, in order; with it
    enabled, dropping the speaker-marker lines (those starting with a
    newline) gives back exactly those lines, so the markers only insert
    lines and never alter, drop or reorder text. *)
Theorem win_build_lines_speaker_markers (cur : option string) (segs : list segment) :
  Win_app.build_lines false cur segs =
    map (fun s => Py.strip (seg_text s))
        (filter (fun s => negb (String.eqb (Py.strip (seg_text s)) "")) segs) /\
  filter (fun l => negb (is_marker l)) (Win_app.build_lines true cur segs) =
    Win_app.build_lines false cur segs.
Proof.
  split; [apply build_lines_plain|].
  rewrite build_lines_plain. revert cur.
  induction segs as [|s segs IH]; intros cur; [reflexivity|].
  cbn [Win_app.build_lines filter].
  destruct (String.eqb (Py.strip (seg_text s)) "") eqn:E; [apply IH|].
  cbn [negb map andb].
  assert (Ht : is_marker (Py.strip (seg_text s)) = false)
    by (apply strip_not_marker, String.eqb_neq, E).
  destruct (Win_app.speaker_changes (seg_speaker s) cur).
  - cbn [filter]. unfold is_marker at 1. rewrite prefix_self_app. cbn [negb].
    rewrite Ht. cbn [negb]. rewrite IH. reflexivity.
  - cbn [filter]. rewrite Ht. cbn [negb]. rewrite IH. reflexivity.
Qed.

(** ** [PurePath.stem] and [PurePath.suffix] *)

Lemma string_of_list_ascii_app (a b : list ascii) :
  string_of_list_ascii (a ++ b) = string_of_list_ascii a ++ string_of_list_ascii b.
Proof. induction a as [|c a IH]; cbn; [reflexivity|]. rewrite IH. reflexivity. Qed.

Lemma append_empty_r (s : string) : s ++ "" = s.
Proof. induction s as [|c s IH]; cbn; [reflexivity|]. rewrite IH. reflexivity. Qed.

Lemma rfind_dot_from_spec (l : list ascii) : forall i acc j,
  rfind_dot_from i l acc = Some j ->
  acc = Some j \/ (i <= j /\ nth_error l (j - i) = Some "."%char)%nat.
Proof.
  induction l as [|c l IH]; intros i acc j H; cbn in H; [now left|].
  apply IH in H as [H|[Hle Hn]].
  - destruct (Ascii.eqb c "."%char) eqn:E; [|now left].
    injection H as <-. right. split; [lia|].
    rewrite Nat.sub_diag. cbn. apply Ascii.eqb_eq in E. now subst.
  - right. split; [lia|].
    replace (j - i)%nat with (S (j - S i)) by lia. exact Hn.
Qed.

Lemma skipn_nth_error {A} (l : list A) : forall j x,
  nth_error l j = Some x -> skipn j l = x :: skipn (S j) l.
Proof.
  induction l as [|y l IH]; intros j x H; destruct j; cbn in *; try discriminate.
  - now injection H as ->.
  - now apply IH.
Qed.

(** [Path(p).stem] and [Path(p).suffix] split the file name: the stem
    followed by the suffix is the name, and the suffix is either empty or
    starts with a dot. *)
Theorem path_stem_suffix_split (is_sep : ascii -> bool) (p : string) :
  path_stem is_sep p ++ path_suffix is_sep p = path_name is_sep p /\
  (path_suffix is_sep p = "" \/ exists rest, path_suffix is_sep p = String "." rest).
Proof.
  unfold path_stem, path_suffix, split_suffix.
  set (name := path_name is_sep p).
  destruct (rfind_dot_from 0 (list_ascii_of_string name) None) as [j|] eqn:Ej;
    [|cbn; rewrite append_empty_r; split; [reflexivity|now left]].
  destruct ((0 <? j)%nat && (j <? List.length (list_ascii_of_string name) - 1)%nat);
    [|cbn; rewrite append_empty_r; split; [reflexivity|now left]].
  cbn [fst snd]. split.
  - rewrite <- string_of_list_ascii_app, firstn_skipn.
    apply string_of_list_ascii_of_string.
  - right. apply rfind_dot_from_spec in Ej as [E|[_ Hn]]; [discriminate|].
    rewrite Nat.sub_0_r in Hn. rewrite (skipn_nth_error _ _ _ Hn).
    eexists. reflexivity.
Qed.

(** ** Output file names and the clock *)

Lemma append_assoc_str (a b c : string) : (a ++ b) ++ c = a ++ (b ++ c).
Proof. induction a as [|x a IH]; cbn; [reflexivity|]. rewrite IH. reflexivity. Qed.

Lemma append_inj (a b c d : string) :
  String.length a = String.length c -> a ++ b = c ++ d -> a = c /\ b = d.
Proof.
  revert c. induction a as [|x a IH]; intros c Hl E; destruct c as [|y c];
    cbn in *; try discriminate; [split; [reflexivity|exact E]|].
  injection E as -> E. injection Hl as Hl.
  destruct (IH c Hl E) as [-> ->]. split; reflexivity.
Qed.

Lemma fmt_04d_digits (y : Z) :
  (0 <= y < 10000)%Z -> Py.fmt_0d 4 y = two_digits (y / 100) ++ two_digits (y mod 100).
Proof.
  intros Hy.
  assert (Hall : forallb (fun k => String.eqb (Py.fmt_0d 4 (Z.of_nat k))
                   (two_digits (Z.of_nat k / 100) ++ two_digits (Z.of_nat k mod 100)))
                 (seq 0 (100 * 100)) = true) by (vm_compute; reflexivity).
  rewrite forallb_forall in Hall.
  specialize (Hall (Z.to_nat y)).
  rewrite Z2Nat.id in Hall by lia.
  apply String.eqb_eq, Hall, in_seq. lia.
Qed.

Lemma two_digits_inj (a b : Z) :
  (0 <= a < 100)%Z -> (0 <= b < 100)%Z -> two_digits a = two_digits b -> a = b.
Proof.
  intros Ha Hb E.
  assert (Hall : forallb (fun i => forallb (fun j =>
                   implb (String.eqb (two_digits (Z.of_nat i)) (two_digits (Z.of_nat j)))
                         (Nat.eqb i j)) (seq 0 100)) (seq 0 100) = true)
    by (vm_compute; reflexivity).
  rewrite forallb_forall in Hall.
  specialize (Hall (Z.to_nat a) ltac:(apply in_seq; lia)).
  rewrite forallb_forall in Hall.
  specialize (Hall (Z.to_nat b) ltac:(apply in_seq; lia)).
  rewrite !Z2Nat.id in Hall by lia. rewrite E, String.eqb_refl in Hall.
  cbn in Hall. apply Nat.eqb_eq in Hall. lia.
Qed.

Lemma stamp_digits (d : datetime) :
  valid_datetime d = true ->
  stamp d = two_digits (dt_year d / 100) ++ two_digits (dt_year d mod 100)
            ++ two_digits (dt_month d) ++ two_digits (dt_day d) ++ "_"
            ++ two_digits (dt_hour d) ++ two_digits (dt_minute d)
            ++ two_digits (dt_second d).
Proof.
  intros Hv. unfold valid_datetime in Hv. rewrite !andb_true_iff, !Z.leb_le in Hv.
  unfold stamp. rewrite fmt_04d_digits by lia.
  rewrite !fmt_02d_two_digits by lia. rewrite append_assoc_str. reflexivity.
Qed.

Lemma stamp_inj (d1 d2 : datetime) :
  valid_datetime d1 = true -> valid_datetime d2 = true -> stamp d1 = stamp d2 -> d1 = d2.
Proof.
  intros H1 H2 E. rewrite (stamp_digits d1 H1), (stamp_digits d2 H2) in E.
  unfold valid_datetime in H1, H2. rewrite !andb_true_iff, !Z.leb_le in H1, H2.
  apply append_inj in E as [Ey1 E]; [|reflexivity].
  apply append_inj in E as [Ey2 E]; [|reflexivity].
  apply append_inj in E as [Emo E]; [|reflexivity].
  apply append_inj in E as [Eda E]; [|reflexivity].
  apply append_inj in E as [_ E]; [|reflexivity].
  apply append_inj in E as [Eho E]; [|reflexivity].
  apply append_inj in E as [Emi Ese]; [|reflexivity].
  apply two_digits_inj in Ey1, Ey2, Emo, Eda, Eho, Emi, Ese;
    try (split; [apply Z.div_pos|apply Z.div_lt_upper_bound]; lia);
    try (apply Z.mod_pos_bound; lia); try lia.
  destruct d1 as [y1 mo1 da1 ho1 mi1 se1], d2 as [y2 mo2 da2 ho2 mi2 se2]; cbn in *.
  rewrite (Z.div_mod y1 100), (Z.div_mod y2 100) by lia.
  rewrite Ey1, Ey2, Emo, Eda, Eho, Emi, Ese. reflexivity.
Qed.

Lemma stamp_length (d : datetime) : valid_datetime d = true -> String.length (stamp d) = 15%nat.
Proof. intros Hv. rewrite (stamp_digits d Hv). reflexivity. Qed.

Lemma append_cancel_l (a b c : string) : a ++ b = a ++ c -> b = c.
Proof. intros E. apply append_inj in E as [_ E]; [exact E|reflexivity]. Qed.

(** Both front ends name the saved file after the clock reading: two saves
    of the same audio path into the same downloads directory at different
    times (valid [datetime] values, to the second) get different file
    names, so a later run never overwrites an earlier transcript. *)
Theorem output_path_determines_clock (h1 h2 : host) (p : string) :
  valid_datetime (clock_file h1) = true -> valid_datetime (clock_file h2) = true ->
  downloads_dir h1 = downloads_dir h2 ->
  (Win_app.output_path h1 p = Win_app.output_path h2 p -> clock_file h1 = clock_file h2) /\
  (Mac_app.output_path h1 p = Mac_app.output_path h2 p -> clock_file h1 = clock_file h2).
Proof.
  intros H1 H2 Hd.
  unfold Win_app.output_path, Mac_app.output_path. rewrite Hd.
  split; intros E; apply stamp_inj; try assumption;
    repeat (apply append_cancel_l in E);
    (apply append_inj in E as [E _]; [exact E|rewrite !stamp_length by assumption; reflexivity]).
Qed.

Lemma output_path_determines_clock_witness :
  let h1 := Demo.host_of false false in
  let h2 := mkHost false false true None "/home/user/Downloads" Demo.clock2 Demo.clock2 in
  valid_datetime (clock_file h1) = true /\ valid_datetime (clock_file h2) = true /\
  downloads_dir h1 = downloads_dir h2 /\
  (Win_app.output_path h1 "talk.mp3" = Win_app.output_path h2 "talk.mp3" ->
     clock_file h1 = clock_file h2) /\
  (Mac_app.output_path h1 "talk.mp3" = Mac_app.output_path h2 "talk.mp3" ->
     clock_file h1 = clock_file h2).
Proof.
  cbv zeta. split; [reflexivity|]. split; [reflexivity|]. split; [reflexivity|].
  apply output_path_determines_clock; reflexivity.
Defined.
